(** * Authentication and session lifecycle of [src/nodejs/server.js]

    A shallow embedding of the Express application: the five route
    handlers ([/register], [/login], [/logout], [/dashboard],
    [/contact]) together with the parts of the libraries they call
    (the mongoose models [User] and [Contact], [bcryptjs] and the
    [express-session] middleware over its store).

    Conventions.
    - [req.body] is a JS object; it is a [gmap string string], a field
      that is absent reads as [None] (JS [undefined]).  Field values
      that are not strings are outside the model.
    - The session store is a [gmap string session] keyed by session id.
    - The user collection is a [list user] in insertion order
      ([findOne] returns the first match).
    - Library calls that can fail for reasons outside the program (the
      store is unreachable) read their outcome from the request's
      [env]; the salt that [bcrypt.hash] draws is read from it too.
    - Every handler returns the trace of library calls it made, in
      program order.
    - The session store holds the records that its [get] returns: a
      record whose lifetime ([maxAge], line 80) is over has left it.
      How records leave between requests is the [Expires] tick of a
      [timeline]. *)

From stdpp Require Import gmap strings list fin_maps pretty.


(** ** Data model *)

(** A mongoose [ObjectId].  It is an object, hence always truthy. *)
Inductive oid := ObjectId (n : nat).

#[global] Instance oid_eq_dec : EqDecision oid.
Proof. solve_decision. Defined.

(** [UserSchema] (lines 86-90): a stored document has the three
    required strings. *)
Record user := mkUser {
  _id : oid;
  username : string;
  email : string;
  password : string;
}.

(** [ContactSchema] (lines 95-101), without the date. *)
Record contact := mkContact {
  contact_name : string;
  contact_email : string;
  contact_message : string;
  contact_userId : option oid;
}.

(** The data of a session, without its cookie: the only property the
    program ever writes is [userId]. *)
Record session := mkSession {
  userId : option oid;
}.

#[global] Instance session_eq_dec : EqDecision session.
Proof. solve_decision. Defined.

Definition empty_session : session := mkSession None.

(** The state shared by all requests. [next_sid] counts the ids drawn
    from the session id generator, [next_oid] the [ObjectId]s made. *)
Record world := mkWorld {
  users : list user;
  contacts : list contact;
  sessions : gmap string session;
  next_sid : nat;
  next_oid : nat;
}.

Definition set_users (w : world) (us : list user) : world :=
  mkWorld us (contacts w) (sessions w) (next_sid w) (next_oid w).

Definition set_contacts (w : world) (cs : list contact) : world :=
  mkWorld (users w) cs (sessions w) (next_sid w) (next_oid w).

Definition set_sessions (w : world) (ss : gmap string session) : world :=
  mkWorld (users w) (contacts w) ss (next_sid w) (next_oid w).

Definition bump_sid (w : world) : world :=
  mkWorld (users w) (contacts w) (sessions w) (S (next_sid w)) (next_oid w).

Definition bump_oid (w : world) : world :=
  mkWorld (users w) (contacts w) (sessions w) (next_sid w) (S (next_oid w)).

(** What the outside world decides for one request. *)
Record env := mkEnv {
  sess_get_fails : bool;
  sess_destroy_fails : bool;
  sess_set_fails : bool;
  user_find_fails : bool;
  user_insert_fails : bool;
  contact_insert_fails : bool;
  salt : string;
}.

Inductive route := Register | Login | Logout | Dashboard | Contact.

(** A request: [req_cookie] is the session id that the [connect.sid]
    cookie of the request carries, if there is one. *)
Record request := mkReq {
  req_route : route;
  req_cookie : option string;
  req_body : gmap string string;
  req_env : env;
}.

Record response := mkResp {
  status : nat;
  text : string;
  set_cookie : option string;
  clear_cookie : bool;
}.

#[global] Instance response_eq_dec : EqDecision response.
Proof. solve_decision. Defined.

Inductive store_error := ValidationError | DuplicateKey | StoreUnavailable.

(** Library calls, as they appear in a handler's trace. *)
Inductive event :=
| SessionGet (sid : string)
| SessionDestroy (sid : string)
| SessionGenerate (sid : string)
| SessionAssignUserId (sid : string) (u : oid)
| SessionSet (sid : string) (s : session)
| UserFindOne (e : option string)
| BcryptHash (pw : option string) (rounds : nat)
| BcryptCompare (pw : option string) (hash : string)
| UserSave (id : oid) (un em : option string) (pw : string)
| ContactSave.

Definition is_hash (e : event) : bool :=
  match e with BcryptHash _ _ => true | _ => false end.

Definition is_assign (e : event) : bool :=
  match e with SessionAssignUserId _ _ => true | _ => false end.

Definition is_session_set (e : event) : bool :=
  match e with SessionSet _ _ => true | _ => false end.

Definition is_user_save (e : event) : bool :=
  match e with UserSave _ _ _ _ => true | _ => false end.

(** ** The mongoose models *)

(** A [required] string path rejects [undefined] and the empty string. *)
Definition required (v : option string) : bool :=
  match v with
  | Some s => negb (String.eqb s "")
  | None => false
  end.

(** [User.findOne({ email })].  Every stored user has a string email,
    so a filter whose email is [undefined] matches no document. *)
Definition find_by_email (us : list user) (em : option string) : option user :=
  match em with
  | Some m => List.find (fun u => String.eqb (email u) m) us
  | None => None
  end.

Definition User_findOne (w : world) (e : env) (em : option string)
  : store_error + option user :=
  if user_find_fails e then inl StoreUnavailable
  else inr (find_by_email (users w) em).

(** [new User({...}).save()]: schema validation first, then the insert,
    which the unique index on [email] (line 88) can reject. *)
Definition User_save (w : world) (e : env) (id : oid)
    (un em : option string) (pw : string) : store_error + world :=
  if required un && required em && required (Some pw) then
    match un, em with
    | Some u, Some m =>
        if existsb (fun x => String.eqb (email x) m) (users w)
        then inl DuplicateKey
        else if user_insert_fails e then inl StoreUnavailable
        else inr (set_users w (users w ++ [mkUser id u m pw]))
    | _, _ => inl ValidationError
    end
  else inl ValidationError.

(** [new Contact({...}).save()]. *)
Definition Contact_save (w : world) (e : env)
    (nm em msg : option string) (uid : option oid) : store_error + world :=
  match nm, em, msg with
  | Some n, Some m, Some g =>
      if required nm && required em && required msg then
        if contact_insert_fails e then inl StoreUnavailable
        else inr (set_contacts w (contacts w ++ [mkContact n m g uid]))
      else inl ValidationError
  | _, _, _ => inl ValidationError
  end.

(** The errors that reach Express's default error handler (the program
    installs none of its own): the [Error] of line 23, a failed read
    of the session store, and the [TypeError] of reading a property of
    an absent [req.session]. *)
Inductive express_error := OriginNotAllowed | SessionReadFailed | SessionUndefined.

(** What happens over time: a request arrives, or the lifetime of the
    session stored under [sid] ends. *)
Inductive tick :=
| Arrives (q : request)
| Expires (sid : string).

(** The store without the record whose lifetime ended. *)
Definition expire (w : world) (sid : string) : world :=
  set_sessions w (delete sid (sessions w)).

(** [t] neither presents the cookie of [sid] nor ends its lifetime. *)
Definition spares (sid : string) (t : tick) : Prop :=
  match t with
  | Arrives q => req_cookie q <> Some sid
  | Expires sid' => sid' <> sid
  end.

(** ** The request context kept by [express-session] *)

(** [req.sessionID], [req.session] and the variables the middleware
    closes over.  The middleware's [hash] of a session is a digest of
    its data; it is modelled by the data itself. *)
Record reqctx := mkCtx {
  cookieId : option string;
  sessionID : string;
  req_session : option session;
  originalId : string;
  originalHash : session;
  savedHash : option session;
}.

Definition set_session (r : reqctx) (sid : string) (s : option session) : reqctx :=
  mkCtx (cookieId r) sid s (originalId r) (originalHash r) (savedHash r).

(** What a handler tells [res]: [res.status(..)], [res.send(..)] and
    [res.clearCookie('connect.sid')]. *)
Record reply := mkReply {
  reply_status : nat;
  reply_text : string;
  reply_clear : bool;
}.

Definition send (st : nat) (msg : string) : reply := mkReply st msg false.

(** Options of [session({...})], lines 72-82. *)
Definition resave : bool := false.
Definition saveUninitialized : bool := false.
Definition rolling : bool := false.

(** ** Cross-origin policy, lines 13-28 *)

Definition allowedOrigins : list string := ["http://localhost:5173"].

(** The [origin] callback of [cors]: [!origin ||
    allowedOrigins.includes(origin)].  [!origin] holds for a request
    without an [Origin] header and for one whose header is empty. *)
Definition cors_origin (origin : option string) : bool :=
  match origin with
  | None => true
  | Some o => String.eqb o "" || existsb (String.eqb o) allowedOrigins
  end.

(** ** The sign-up form, [src/frontend/src/Signup.jsx] *)

(** The four [useState] cells of the component. *)
Record signup_state := mkSignup {
  su_username : string;
  su_email : string;
  su_password : string;
  su_confirmPassword : string;
}.

(** What [handleRegister] does to the outside, in program order. *)
Inductive ui_event :=
| HttpPost (path : string) (payload : gmap string string)
| ConsoleLog (data : string)
| ConsoleError (data : string)
| Alert (msg : string)
| NavigateTo (path : string).

(** [axios.post] resolves when the status is 2xx and rejects
    otherwise. *)
Definition axios_resolves (r : response) : bool :=
  (200 <=? status r) && (status r <? 300).

(** [err.response?.data || err.message] of line 30. *)
Definition axios_error_data (r : option response) : string :=
  match r with
  | Some resp =>
      if String.eqb (text resp) ""
      then "Request failed with status code " +:+ pretty (status resp)
      else text resp
  | None => "Network Error"
  end.

Definition register_payload (f : signup_state) : gmap string string :=
  {[ "username" := su_username f; "email" := su_email f;
     "password" := su_password f ]}.

(** [handleRegister], lines 14-33.  [post] is the network: it takes
    the state of the other side, the path and the JSON body, and gives
    the new state and the response, or no response at all. *)
Definition handleRegister {S : Type}
    (post : S -> string -> gmap string string -> S * option response)
    (f : signup_state) (s : S) : S * list ui_event :=
  if negb (String.eqb (su_password f) (su_confirmPassword f))
  then (s, [Alert "Passwords do not match."])
  else
    let '(s', r) := post s "/register" (register_payload f) in
    let sent := HttpPost "/register" (register_payload f) in
    match r with
    | Some resp =>
        if axios_resolves resp then
          (s', [sent; ConsoleLog (text resp);
                Alert "Registration successful!"; NavigateTo "/"])
        else
          (s', [sent; ConsoleError (axios_error_data r);
                Alert "Registration failed. Please try again."])
    | None =>
        (s', [sent; ConsoleError (axios_error_data r);
              Alert "Registration failed. Please try again."])
    end.

(** ** A concrete instance

    A toy id generator and a toy hasher, and the data of the scenario
    "register alice, log in, open the dashboard, log out", used to run
    the model. *)

Fixpoint demo_genid (n : nat) : string :=
  match n with
  | 0 => "s"
  | S k => "i" +:+ demo_genid k
  end.

Definition demo_hash (p : string) (rounds : nat) (sl : string) : string :=
  "$" +:+ sl +:+ p.

Definition demo_compare (p h : string) : bool :=
  bool_decide (h = demo_hash p 10 "NaCl").

Definition demo_error_page (err : express_error) : string :=
  match err with
  | OriginNotAllowed => "<pre>Error: CORS policy violation: origin not allowed.</pre>"
  | SessionReadFailed => "<pre>Error: session store</pre>"
  | SessionUndefined => "<pre>TypeError</pre>"
  end.

Definition env_ok : env := mkEnv false false false false false false "NaCl".

Definition env_destroy_down : env :=
  mkEnv false true false false false false "NaCl".

Definition body_alice : gmap string string :=
  {[ "username" := "alice"; "email" := "a@x.com"; "password" := "secret" ]}.

Definition body_bob : gmap string string :=
  {[ "username" := "bob"; "email" := "a@x.com"; "password" := "hunter2" ]}.

Definition body_login : gmap string string :=
  {[ "email" := "a@x.com"; "password" := "secret" ]}.

Definition body_wrong_password : gmap string string :=
  {[ "email" := "a@x.com"; "password" := "guess" ]}.


Definition body_no_username : gmap string string :=
  {[ "username" := ""; "email" := "a@x.com"; "password" := "secret" ]}.

Definition alice : user := mkUser (ObjectId 0) "alice" "a@x.com" "$NaClsecret".

(** Nobody registered, no session. *)
Definition world0 : world := mkWorld [] [] ∅ 0 0.

(** Alice registered, nobody logged in; two ids were drawn so far. *)
Definition world1 : world := mkWorld [alice] [] ∅ 2 1.

(** Alice logged in under the session id ["iis"]. *)
Definition world2 : world :=
  mkWorld [alice] [] {[ "iis" := mkSession (Some (ObjectId 0)) ]} 3 1.

Definition body_no_password : gmap string string :=
  {[ "email" := "a@x.com" ]}.


Definition body_contact : gmap string string :=
  {[ "name" := "Alice"; "email" := "a@x.com"; "message" := "hello" ]}.

Definition body_contact_no_message : gmap string string :=
  {[ "name" := "Alice"; "email" := "a@x.com" ]}.

Definition form_alice : signup_state :=
  mkSignup "alice" "a@x.com" "secret" "secret".

Section Server.

(** The session id generator: [genid n] is the [n]-th id it yields. *)
Variable genid : nat -> string.

(** [bcryptjs]: [bcrypt_hash pw rounds salt] and
    [bcrypt_compare pw hash] on strings. *)
Variable bcrypt_hash : string -> nat -> string -> string.
Variable bcrypt_compare : string -> string -> bool.

(** The deployment mode, [process.env.NODE_ENV === 'production']. *)
Variable production : bool.

(** The page that Express's default error handler renders for an
    error, sent with status 500. *)
Variable error_page : express_error -> string.

(** [cookie.secure], line 79. *)
Definition cookie_secure : bool := production.

(** [issecure(req, trustProxy)]: the server of line 190 listens on
    plain HTTP and no proxy is trusted, so no request counts as
    arriving over a secure connection. *)
Definition issecure : bool := false.

(** [bcrypt.hash(s, 10)] and [bcrypt.compare(s, hash)] reject
    ("Illegal arguments") when [s] is not a string. *)
Definition bcrypt_hash_js (s : option string) (rounds : nat) (sl : string)
  : option string :=
  match s with
  | Some p => Some (bcrypt_hash p rounds sl)
  | None => None
  end.

Definition bcrypt_compare_js (s : option string) (h : string) : option bool :=
  match s with
  | Some p => Some (bcrypt_compare p h)
  | None => None
  end.

(** *** Session middleware, lines 71-83 *)

(** [generate()] of the middleware: a new id and an empty session. *)
Definition generate (w : world) (c : option string)
  : world * reqctx * list event :=
  let sid := genid (next_sid w) in
  (bump_sid w,
   mkCtx c sid (Some empty_session) sid empty_session None,
   [SessionGenerate sid]).

(** [inflate(req, sess)]; with [resave: false] the loaded data counts
    as saved. *)
Definition inflate (w : world) (c : string) (s : session)
  : world * reqctx * list event :=
  (w,
   mkCtx (Some c) c (Some s) c s (if resave then None else Some s),
   []).

(** [getcookie(req, name, secrets)]: the cookie counts only if its
    signature verifies.  A signature is taken to verify exactly when
    the server made it, and the server signs only ids that its
    generator yielded. *)
Definition was_issued (w : world) (sid : string) : bool :=
  existsb (fun k => String.eqb (genid k) sid) (seq 0 (next_sid w)).

Definition getcookie (w : world) (c : option string) : option string :=
  match c with
  | Some sid => if was_issued w sid then Some sid else None
  | None => None
  end.

(** The middleware proper.  [inl] is [next(err)]: the store could not
    be read and no handler runs. *)
Definition session_middleware (w : world) (e : env) (c : option string)
  : list event + world * reqctx * list event :=
  match getcookie w c with
  | None => inr (generate w None)
  | Some sid =>
      if sess_get_fails e then inl [SessionGet sid]
      else
        let '(w', r, tr) :=
          match sessions w !! sid with
          | None => generate w (Some sid)
          | Some s => inflate w sid s
          end in
        inr (w', r, SessionGet sid :: tr)
  end.

(** [store.destroy(sid, cb)]: [true] is an error passed to [cb]. *)
Definition store_destroy (w : world) (e : env) (sid : string) : world * bool :=
  if sess_destroy_fails e then (w, true)
  else (set_sessions w (delete sid (sessions w)), false).

(** [req.session.regenerate(cb)]: destroy the current id, then
    [store.generate(req)] whatever the outcome, then [cb(err)]. *)
Definition session_regenerate (w : world) (e : env) (r : reqctx)
  : world * reqctx * bool * list event :=
  let old := sessionID r in
  let '(w1, err) := store_destroy w e old in
  let sid := genid (next_sid w1) in
  (bump_sid w1, set_session r sid (Some empty_session), err,
   [SessionDestroy old; SessionGenerate sid]).

(** [req.session.destroy(cb)]: [delete req.session], then
    [store.destroy(this.id, cb)]. *)
Definition session_destroy (w : world) (e : env) (r : reqctx)
  : world * reqctx * bool * list event :=
  let sid := sessionID r in
  let '(w1, err) := store_destroy w e sid in
  (w1, set_session r sid None, err, [SessionDestroy sid]).

Definition isModified (r : reqctx) (s : session) : bool :=
  negb (bool_decide (originalId r = sessionID r))
  || negb (bool_decide (originalHash r = s)).

Definition isSaved (r : reqctx) (s : session) : bool :=
  bool_decide (originalId r = sessionID r)
  && bool_decide (savedHash r = Some s).

Definition shouldSave (r : reqctx) (s : session) : bool :=
  if negb saveUninitialized
     && bool_decide (savedHash r = None)
     && negb (bool_decide (cookieId r = Some (sessionID r)))
  then isModified r s
  else negb (isSaved r s).

(** The cookie has a [maxAge], so [cookie.expires] is never null. *)
Definition shouldSetCookie (r : reqctx) (s : session) : bool :=
  if negb (bool_decide (cookieId r = Some (sessionID r)))
  then saveUninitialized || isModified r s
  else rolling || isModified r s.

(** The wrapped [res.end]: save the session if it has to be, and set
    the cookie if it has to be; a [secure] cookie is set only on a
    secure connection.  A failed save is passed to [next] after the
    response has been written. *)
Definition commit (w : world) (e : env) (r : reqctx)
  : world * option string * list event :=
  match req_session r with
  | None => (w, None, [])
  | Some s =>
      let ck := if shouldSetCookie r s && negb (cookie_secure && negb issecure)
                then Some (sessionID r) else None in
      if shouldSave r s then
        (if sess_set_fails e then w
         else set_sessions w (<[sessionID r := s]> (sessions w)),
         ck, [SessionSet (sessionID r) s])
      else (w, ck, [])
  end.

(** *** Route handlers *)

Definition handler_result : Type := world * reqctx * reply * list event.

(** Lines 114-123: what [/register] does once the existence check
    has found nobody.  Every rejection is caught at line 120. *)
Definition register_insert (w : world) (e : env) (b : gmap string string)
  : world * reply * list event :=
  let un := b !! "username" in
  let em := b !! "email" in
  let pw := b !! "password" in
  match bcrypt_hash_js pw 10 (salt e) with
  | None => (w, send 500 "Error registering user.", [BcryptHash pw 10])
  | Some hashedPassword =>
      let id := ObjectId (next_oid w) in
      let w1 := bump_oid w in
      let tr := [BcryptHash pw 10; UserSave id un em hashedPassword] in
      match User_save w1 e id un em hashedPassword with
      | inl _ => (w1, send 500 "Error registering user.", tr)
      | inr w2 => (w2, send 201 "User registered successfully!", tr)
      end
  end.

(** [POST /register], lines 106-124. *)
Definition register (w : world) (e : env) (r : reqctx) (b : gmap string string)
  : handler_result :=
  let em := b !! "email" in
  match User_findOne w e em with
  | inl _ => (w, r, send 500 "Error registering user.", [UserFindOne em])
  | inr (Some existingUser) =>
      (w, r, send 400 "User already exists.", [UserFindOne em])
  | inr None =>
      let '(w', rp, tr) := register_insert w e b in
      (w', r, rp, UserFindOne em :: tr)
  end.

(** [POST /login], lines 127-148.  A [req] without a session makes
    [req.session.regenerate] throw inside the [try]. *)
Definition login (w : world) (e : env) (r : reqctx) (b : gmap string string)
  : handler_result :=
  let em := b !! "email" in
  let pw := b !! "password" in
  match User_findOne w e em with
  | inl _ => (w, r, send 500 "Error logging in.", [UserFindOne em])
  | inr None => (w, r, send 400 "Invalid email or password.", [UserFindOne em])
  | inr (Some u) =>
      let tr := [UserFindOne em; BcryptCompare pw (password u)] in
      match bcrypt_compare_js pw (password u) with
      | None => (w, r, send 500 "Error logging in.", tr)
      | Some false => (w, r, send 400 "Invalid email or password.", tr)
      | Some true =>
          match req_session r with
          | None => (w, r, send 500 "Error logging in.", tr)
          | Some _ =>
              let '(w1, r1, err, tr1) := session_regenerate w e r in
              if err then (w1, r1, send 500 "Error logging in.", tr ++ tr1)
              else
                (w1,
                 set_session r1 (sessionID r1) (Some (mkSession (Some (_id u)))),
                 send 200 "Login successful!",
                 tr ++ tr1 ++ [SessionAssignUserId (sessionID r1) (_id u)])
          end
      end
  end.

(** [POST /logout], lines 151-157. *)
Definition logout (w : world) (e : env) (r : reqctx) : handler_result :=
  match req_session r with
  | None => (w, r, send 500 (error_page SessionUndefined), [])
  | Some _ =>
      let '(w1, r1, err, tr) := session_destroy w e r in
      if err then (w1, r1, send 500 "Error logging out.", tr)
      else (w1, r1, mkReply 200 "Logout successful!" true, tr)
  end.

(** [GET /dashboard], lines 160-165. *)
Definition dashboard (w : world) (r : reqctx) : handler_result :=
  match req_session r with
  | None => (w, r, send 500 (error_page SessionUndefined), [])
  | Some s =>
      match userId s with
      | None => (w, r, send 401 "Unauthorized. Please log in.", [])
      | Some _ => (w, r, send 200 "Welcome to your dashboard!", [])
      end
  end.

(** [POST /contact], lines 168-185. *)
Definition contact_form (w : world) (e : env) (r : reqctx) (b : gmap string string)
  : handler_result :=
  match req_session r with
  | None => (w, r, send 500 "Error submitting message.", [])
  | Some s =>
      match Contact_save w e (b !! "name") (b !! "email") (b !! "message")
              (userId s) with
      | inl _ => (w, r, send 500 "Error submitting message.", [ContactSave])
      | inr w' => (w', r, send 201 "Message submitted successfully!", [ContactSave])
      end
  end.

Definition dispatch (w : world) (r : reqctx) (q : request) : handler_result :=
  match req_route q with
  | Register => register w (req_env q) r (req_body q)
  | Login => login w (req_env q) r (req_body q)
  | Logout => logout w (req_env q) r
  | Dashboard => dashboard w r
  | Contact => contact_form w (req_env q) r (req_body q)
  end.

(** One request through the whole application: session middleware,
    route handler, end of response. *)
Definition handle (w : world) (q : request) : world * response * list event :=
  match session_middleware w (req_env q) (req_cookie q) with
  | inl tr => (w, mkResp 500 (error_page SessionReadFailed) None false, tr)
  | inr (w1, r, tr1) =>
      let '(w2, r2, rp, tr2) := dispatch w1 r q in
      let '(w3, ck, tr3) := commit w2 (req_env q) r2 in
      (w3, mkResp (reply_status rp) (reply_text rp) ck (reply_clear rp),
       tr1 ++ tr2 ++ tr3)
  end.

(** Requests served one after the other. *)
Fixpoint serve (w : world) (qs : list request) : world :=
  match qs with
  | [] => w
  | q :: qs' => serve (handle w q).1.1 qs'
  end.

(** Lines 112-123: what [/register] does with the outcome [found] of
    its existence check. *)
Definition register_rest (w : world) (e : env) (b : gmap string string)
    (found : store_error + option user) : world * reply :=
  match found with
  | inl _ => (w, send 500 "Error registering user.")
  | inr (Some existingUser) => (w, send 400 "User already exists.")
  | inr None => let '(w', rp, _) := register_insert w e b in (w', rp)
  end.

(** Two [/register] requests whose handlers interleave at the first
    [await]: both run the existence check (line 111) on the same
    store, then each runs lines 112-123 to its end with what its own
    check found.  Both requests are answered. *)
Definition register_interleaved (w : world)
    (ea : env) (ba : gmap string string)
    (eb : env) (bb : gmap string string) : world * option reply * option reply :=
  let fa := User_findOne w ea (ba !! "email") in
  let fb := User_findOne w eb (bb !! "email") in
  let '(w1, ra) := register_rest w ea ba fa in
  let '(w2, rb) := register_rest w1 eb bb fb in
  (w2, Some ra, Some rb).

(** Requests and expiries, one after the other. *)
Fixpoint run (w : world) (ts : list tick) : world :=
  match ts with
  | [] => w
  | Arrives q :: ts' => run (handle w q).1.1 ts'
  | Expires sid :: ts' => run (expire w sid) ts'
  end.


(** The application behind its first middleware, [cors] (lines
    17-28): a request whose origin the callback refuses is passed to
    the error handler before anything else runs. *)
Definition app (w : world) (origin : option string) (q : request)
  : world * response * list event :=
  if cors_origin origin then handle w q
  else (w, mkResp 500 (error_page OriginNotAllowed) None false, []).

(** The form submitted from a page of origin [origin] against the
    application.  The request is cross-origin and [axios] is not asked
    to send credentials, so it carries no cookie; the browser hands the
    response to the script only when [cors] accepted the origin. *)
Definition signup (w : world) (origin : option string) (e : env)
    (f : signup_state) : world * list ui_event :=
  handleRegister
    (fun w _ b =>
       let '(w', resp, _) := app w origin (mkReq Register None b e) in
       (w', if cors_origin origin then Some resp else None))
    f w.

(** ** Vocabulary of the properties *)

(** [sid] was drawn from the generator at some earlier point. *)
Definition issued (w : world) (sid : string) : Prop :=
  exists k, k < next_sid w /\ sid = genid k.

(** Every stored session lives under an id the generator yielded. *)
Definition wf (w : world) : Prop :=
  forall sid, is_Some (sessions w !! sid) -> issued w sid.

(** The user id bound to [sid] in the store, if any. *)
Definition bound (w : world) (sid : string) : option oid :=
  sessions w !! sid ≫= userId.

(** The store once the end of the response has saved session [s]
    under [sid], or failed to. *)
Definition saved (w : world) (e : env) (sid : string) (s : session) : world :=
  if sess_set_fails e then w
  else set_sessions w (<[sid := s]> (sessions w)).

(** An id that was issued and has no record any more. *)
Definition retired (w : world) (sid : string) : Prop :=
  wf w /\ issued w sid /\ sessions w !! sid = None.

(** Emails are pairwise distinct and the three required strings of
    every stored user are non-empty. *)
Definition users_ok (w : world) : Prop :=
  NoDup (map email (users w))
  /\ forall u, In u (users w) ->
       username u <> "" /\ email u <> "" /\ password u <> "".

(** Every user id bound to a session is the [_id] of a stored user. *)
Definition sessions_ok (w : world) : Prop :=
  forall sid v, bound w sid = Some v -> exists u, In u (users w) /\ _id u = v.

(** ** Properties *)

(** The id generator never yields the same id twice. *)
Hypothesis genid_inj : forall i j, genid i = genid j -> i = j.

Lemma issued_not_next (w : world) (sid : string) (k : nat) :
  issued w sid -> sid <> genid (next_sid w + k).
Proof using genid_inj.
  intros (j & Hj & ->) Heq. apply genid_inj in Heq. lia.
Qed.

Lemma was_issued_spec (w : world) (sid : string) :
  was_issued w sid = true <-> issued w sid.
Proof.
  unfold was_issued, issued. rewrite existsb_exists. split.
  - intros (k & Hk & Heq). apply in_seq in Hk. apply String.eqb_eq in Heq.
    exists k. split; [lia|done].
  - intros (k & Hk & ->). exists k. split; [apply in_seq; lia|].
    apply String.eqb_refl.
Qed.

Lemma getcookie_issued (w : world) (c : option string) (sid : string) :
  getcookie w c = Some sid -> c = Some sid /\ issued w sid.
Proof.
  unfold getcookie. destruct c as [x|]; [|done].
  destruct (was_issued w x) eqn:E; [|done].
  intros [= ->]. split; [done|]. by apply was_issued_spec.
Qed.

(** *** The session middleware always hands a session to the handler *)

Lemma middleware_gives_session (w : world) (e : env) (c : option string)
    (w1 : world) (r : reqctx) (tr : list event) :
  session_middleware w e c = inr (w1, r, tr) ->
  exists s, req_session r = Some s
    /\ originalId r = sessionID r /\ originalHash r = s
    /\ users w1 = users w /\ contacts w1 = contacts w
    /\ sessions w1 = sessions w /\ next_oid w1 = next_oid w
    /\ cookieId r = getcookie w c
    /\ (forall ev, In ev tr ->
          is_hash ev = false /\ is_assign ev = false
          /\ is_user_save ev = false /\ is_session_set ev = false)
    /\ ((cookieId r = Some (sessionID r) /\ savedHash r = Some s
         /\ sessions w !! sessionID r = Some s /\ w1 = w)
        \/ (savedHash r = None /\ s = empty_session
            /\ sessionID r = genid (next_sid w) /\ w1 = bump_sid w
            /\ (forall sid, cookieId r = Some sid -> sessions w !! sid = None))).
Proof.
  unfold session_middleware, generate, inflate.
  destruct (getcookie w c) as [sid|] eqn:Hc.
  - destruct (sess_get_fails e); [discriminate|].
    destruct (sessions w !! sid) as [s|] eqn:E; intros [= <- <- <-]; simpl.
    + exists s. split_and!; try done.
      * intros ev [<-|[]]; done.
      * left. done.
    + exists empty_session. split_and!; try done.
      * intros ev [<-|[<-|[]]]; done.
      * right. split_and!; try done. by intros ? [= <-].
  - intros [= <- <- <-]; simpl. exists empty_session. split_and!; try done.
    + intros ev [<-|[]]; done.
    + right. split_and!; done.
Qed.

(** A session the handler did not touch is neither saved nor
    announced by a cookie. *)
Lemma commit_untouched (w w1 : world) (e e' : env) (c : option string)
    (r : reqctx) (tr : list event) :
  session_middleware w e c = inr (w1, r, tr) ->
  forall w2, commit w2 e' r = (w2, None, []).
Proof using genid_inj.
  intros H w2. apply middleware_gives_session in H
    as (s & Hs & Ho & Hh & _ & _ & _ & _ & Hck & _ & Hc).
  unfold commit, shouldSave, shouldSetCookie, isModified, isSaved,
    saveUninitialized, rolling.
  rewrite Hs, Ho, Hh.
  destruct Hc as [(Hc & Hsv & _)|(Hsv & -> & Hid & _ & Hn)]; rewrite Hsv.
  - rewrite Hc. repeat case_bool_decide; simplify_eq; done.
  - repeat case_bool_decide; simplify_eq; try done.
    exfalso. rewrite Hck in *.
    match goal with H : getcookie _ _ = Some _ |- _ =>
      apply getcookie_issued in H as [_ Hi] end.
    apply (issued_not_next w _ 0) in Hi. rewrite Nat.add_0_r in Hi. done.
Qed.

Lemma getcookie_bound (w : world) (c : option string) :
  wf w -> getcookie w c ≫= bound w = c ≫= bound w.
Proof.
  intros Hwf. unfold getcookie. destruct c as [sid|]; [|done].
  destruct (was_issued w sid) eqn:E; [done|]. simpl.
  unfold bound. destruct (sessions w !! sid) as [s|] eqn:Hs; [|done].
  exfalso. assert (issued w sid) as Hi by (apply Hwf; rewrite Hs; eauto).
  apply was_issued_spec in Hi. congruence.
Qed.

(** What the middleware exposes as [req.session.userId] is the user
    id bound in the store to the id of the verified cookie. *)
Lemma middleware_userId (w : world) (e : env) (c : option string)
    (w1 : world) (r : reqctx) (tr : list event) (s : session) :
  session_middleware w e c = inr (w1, r, tr) ->
  req_session r = Some s ->
  userId s = getcookie w c ≫= bound w.
Proof.
  intros H Hs. apply middleware_gives_session in H
    as (s' & Hs' & _ & _ & _ & _ & _ & _ & Hck & _ & Hc).
  assert (s' = s) as -> by congruence. rewrite <- Hck. unfold bound.
  destruct Hc as [(Hc & _ & Hl & _)|(_ & -> & _ & _ & Hn)].
  - rewrite Hc. simpl. by rewrite Hl.
  - destruct (cookieId r) as [sid|]; [|done]. simpl. by rewrite (Hn sid).
Qed.

Lemma middleware_total (w : world) (e : env) (c : option string) :
  sess_get_fails e = false ->
  exists w1 r tr, session_middleware w e c = inr (w1, r, tr).
Proof.
  intros He. unfold session_middleware. rewrite He.
  destruct (getcookie w c) as [sid|]; [|unfold generate; eauto].
  destruct (sessions w !! sid); unfold generate, inflate; eauto.
Qed.

(** [/dashboard] through the whole application. *)
Lemma handle_dashboard (w : world) (c : option string)
    (b : gmap string string) (e : env) :
  wf w ->
  sess_get_fails e = false ->
  (handle w (mkReq Dashboard c b e)).1.2
  = match c ≫= bound w with
    | None => mkResp 401 "Unauthorized. Please log in." None false
    | Some _ => mkResp 200 "Welcome to your dashboard!" None false
    end.
Proof using genid_inj.
  intros Hwf He.
  destruct (middleware_total w e c He) as (w1 & r & tr & Hm).
  destruct (middleware_gives_session _ _ _ _ _ _ Hm) as (s & Hs & _).
  pose proof (middleware_userId _ _ _ _ _ _ _ Hm Hs) as Hu.
  rewrite getcookie_bound in Hu by done.
  assert (forall w2, commit w2 e r = (w2, None, [])) as Hc
    by (eapply commit_untouched; eauto).
  unfold handle; simpl. rewrite Hm. unfold dispatch, dashboard; simpl.
  rewrite Hs, Hu. destruct (c ≫= bound w); by rewrite Hc.
Qed.

(** *** C8: the dashboard guard *)

(** C8.  For every request to [GET /dashboard] that reaches the
    handler: when no user id is bound to the current session the
    response is 401 "Unauthorized. Please log in."; when one is
    bound the response is 200.  Stated both for the handler on any
    request context and for the whole application, where the current
    session is the one stored under the id of the request's cookie. *)
Theorem dashboard_guard (w : world) (c : option string)
    (b : gmap string string) (e : env) :
  wf w ->
  sess_get_fails e = false ->
  (forall r s, req_session r = Some s ->
     (dashboard w r).1.2 =
       match userId s with
       | None => send 401 "Unauthorized. Please log in."
       | Some _ => send 200 "Welcome to your dashboard!"
       end)
  /\ (c ≫= bound w = None ->
      (handle w (mkReq Dashboard c b e)).1.2
      = mkResp 401 "Unauthorized. Please log in." None false)
  /\ (forall u, c ≫= bound w = Some u ->
      (handle w (mkReq Dashboard c b e)).1.2
      = mkResp 200 "Welcome to your dashboard!" None false).
Proof using genid_inj.
  intros Hwf He. split.
  { intros r s Hs. unfold dashboard. rewrite Hs. by destruct (userId s). }
  rewrite (handle_dashboard w c b e Hwf He).
  split; [by intros ->|by intros u ->].
Qed.

(** *** Requests whose handler leaves [req.session] alone *)

Lemma handle_untouched (w : world) (q : request) (w1 w2 : world)
    (r : reqctx) (rp : reply) (tr1 tr2 : list event) :
  session_middleware w (req_env q) (req_cookie q) = inr (w1, r, tr1) ->
  dispatch w1 r q = (w2, r, rp, tr2) ->
  handle w q
  = (w2, mkResp (reply_status rp) (reply_text rp) None (reply_clear rp),
     tr1 ++ tr2).
Proof using genid_inj.
  intros Hm Hd. unfold handle. rewrite Hm, Hd.
  rewrite (commit_untouched _ _ _ _ _ _ _ Hm). by rewrite app_nil_r.
Qed.

Lemma find_by_email_In (us : list user) (u : user) :
  In u us -> exists u', find_by_email us (Some (email u)) = Some u'.
Proof.
  intros Hin. simpl.
  destruct (List.find (fun x => String.eqb (email x) (email u)) us) eqn:E; [eauto|].
  exfalso. eapply find_none in E; [|exact Hin]. simpl in E.
  by rewrite String.eqb_refl in E.
Qed.

Lemma find_by_email_existsb (us : list user) (m : string) :
  find_by_email us (Some m) = None <->
  existsb (fun x => String.eqb (email x) m) us = false.
Proof.
  simpl. induction us as [|x us IH]; simpl; [done|].
  destruct (String.eqb (email x) m); simpl; [split; discriminate|exact IH].
Qed.

(** *** C3: failed logins look alike *)


(** *** The three outcomes of [/register] *)

Lemma required_Some (v : option string) :
  required v = true -> exists s, v = Some s /\ s <> "".
Proof.
  destruct v as [s|]; [|done]. simpl. intros H. exists s. split; [done|].
  intros ->. done.
Qed.

Lemma register_spec (w : world) (e : env) (r : reqctx) (b : gmap string string) :
  exists w' rp tr,
    register w e r b = (w', r, rp, tr)
    /\ sessions w' = sessions w /\ contacts w' = contacts w
    /\ next_sid w' = next_sid w
    /\ ((rp = send 201 "User registered successfully!"
         /\ exists un em pw,
             b !! "username" = Some un /\ b !! "email" = Some em
             /\ b !! "password" = Some pw
             /\ un <> "" /\ em <> ""
             /\ find_by_email (users w) (Some em) = None
             /\ users w'
                = users w ++ [mkUser (ObjectId (next_oid w)) un em
                                (bcrypt_hash pw 10 (salt e))]
             /\ tr = [UserFindOne (Some em); BcryptHash (Some pw) 10;
                      UserSave (ObjectId (next_oid w)) (Some un) (Some em)
                        (bcrypt_hash pw 10 (salt e))])
        \/ (rp = send 400 "User already exists."
            /\ w' = w /\ tr = [UserFindOne (b !! "email")]
            /\ user_find_fails e = false
            /\ exists u, find_by_email (users w) (b !! "email") = Some u)
        \/ (rp = send 500 "Error registering user."
            /\ users w' = users w
            /\ (user_find_fails e = false ->
                find_by_email (users w) (b !! "email") = None))).
Proof.
  unfold register, User_findOne.
  destruct (user_find_fails e) eqn:Hf.
  { do 3 eexists. split; [reflexivity|]. split_and!; try done.
    right; right. done. }
  destruct (find_by_email (users w) (b !! "email")) as [u|] eqn:Hfind.
  { do 3 eexists. split; [reflexivity|]. split_and!; try done.
    right; left. split_and!; eauto. }
  unfold register_insert, bcrypt_hash_js.
  destruct (b !! "password") as [pw|] eqn:Hpw; last first.
  { do 3 eexists. split; [reflexivity|]. split_and!; try done.
    right; right. done. }
  unfold User_save.
  destruct (required (b !! "username") && required (b !! "email")
            && required (Some (bcrypt_hash pw 10 (salt e)))) eqn:Hreq; last first.
  { do 3 eexists. split; [reflexivity|]. split_and!; try done.
    right; right. done. }
  apply andb_prop in Hreq as [Hreq _]. apply andb_prop in Hreq as [Hun Hem].
  apply required_Some in Hun as (un & Hun & Hune).
  apply required_Some in Hem as (em & Hem & Heme).
  rewrite Hun, Hem. simpl.
  rewrite Hem in Hfind. pose proof Hfind as Hex.
  apply find_by_email_existsb in Hex. rewrite Hex.
  destruct (user_insert_fails e) eqn:Hins.
  { do 3 eexists. split; [reflexivity|]. split_and!; try done.
    right; right. done. }
  do 3 eexists. split; [reflexivity|]. split_and!; try done.
  left. split; [done|]. exists un, em, pw. split_and!; done.
Qed.

(** [/register] through the whole application. *)
Lemma handle_register (w : world) (c : option string)
    (b : gmap string string) (e : env)
    (w1 : world) (r : reqctx) (tr1 : list event) :
  session_middleware w e c = inr (w1, r, tr1) ->
  exists w' rp tr2,
    register w1 e r b = (w', r, rp, tr2)
    /\ handle w (mkReq Register c b e)
       = (w', mkResp (reply_status rp) (reply_text rp) None (reply_clear rp),
          tr1 ++ tr2).
Proof using genid_inj.
  intros Hm. destruct (register_spec w1 e r b) as (w' & rp & tr2 & Hr & _).
  exists w', rp, tr2. split; [done|].
  by apply (handle_untouched w (mkReq Register c b e) w1 w' r rp tr1 tr2).
Qed.

(** *** C2: a duplicate email is rejected before anything is done *)

(** C2.  A registration whose email matches an existing user record
    is answered 400 "User already exists.", whatever username and
    password it carries; users, contacts and sessions are left as
    they were, and the trace of the request has no [bcrypt.hash] call
    and no [save]. *)
Theorem register_duplicate_email_rejected (w : world) (c : option string)
    (b : gmap string string) (e : env) (u : user) :
  sess_get_fails e = false ->
  user_find_fails e = false ->
  In u (users w) ->
  b !! "email" = Some (email u) ->
  exists w' tr,
    handle w (mkReq Register c b e)
    = (w', mkResp 400 "User already exists." None false, tr)
    /\ users w' = users w /\ contacts w' = contacts w
    /\ sessions w' = sessions w
    /\ forall ev, In ev tr -> is_hash ev = false /\ is_user_save ev = false.
Proof using genid_inj.
  intros Hg Hf Hin Hem.
  destruct (middleware_total w e c Hg) as (w1 & r & tr1 & Hm).
  destruct (middleware_gives_session _ _ _ _ _ _ Hm)
    as (s & _ & _ & _ & Hu & Hc & Hs & _ & _ & Htr & _).
  destruct (handle_register w c b e w1 r tr1 Hm) as (w' & rp & tr2 & Hr & Hh).
  destruct (find_by_email_In _ _ Hin) as (u' & Hu').
  destruct (register_spec w1 e r b)
    as (w'' & rp' & tr' & Hr' & Hs' & Hc' & _ & Hcases).
  rewrite Hr in Hr'. injection Hr' as <- <- <-.
  rewrite Hu, Hem in Hcases.
  destruct Hcases as [(_ & un & em & pw & _ & Hem' & _ & _ & _ & Hnone & _)
                     |[(-> & -> & -> & _)|(_ & _ & Hnone)]].
  - injection Hem' as <-. congruence.
  - exists w1, (tr1 ++ [UserFindOne (Some (email u))]).
    split; [exact Hh|]. split_and!; try done.
    intros ev Hev. apply in_app_or in Hev as [Hev|[<-|[]]]; [|done].
    destruct (Htr ev Hev) as (H1 & _ & H2 & _). done.
  - specialize (Hnone Hf). congruence.
Qed.

(** *** C9: what a successful registration leaves behind *)

(** C9.  Every registration answered 201 appends one user record
    whose password field is [bcrypt_hash pw 10 salt], the salted
    hash of the submitted password at cost factor 10, which is not
    the submitted password (for a hasher whose output never equals
    its input); the session store is unchanged, the response sets no
    cookie, and the trace holds no write to a session. *)
Theorem register_success_stores_hash (w : world) (c : option string)
    (b : gmap string string) (e : env)
    (w' : world) (resp : response) (tr : list event) :
  (forall p rounds sl, bcrypt_hash p rounds sl <> p) ->
  handle w (mkReq Register c b e) = (w', resp, tr) ->
  status resp = 201 ->
  exists un em pw,
    b !! "username" = Some un /\ b !! "email" = Some em
    /\ b !! "password" = Some pw
    /\ users w'
       = users w ++ [mkUser (ObjectId (next_oid w)) un em
                       (bcrypt_hash pw 10 (salt e))]
    /\ bcrypt_hash pw 10 (salt e) <> pw
    /\ sessions w' = sessions w
    /\ (forall sid, bound w' sid = bound w sid)
    /\ set_cookie resp = None
    /\ forall ev, In ev tr ->
         is_assign ev = false /\ is_session_set ev = false.
Proof using genid_inj.
  intros Hone Hh Hst.
  destruct (session_middleware w e c) as [tr0|[[w1 r] tr1]] eqn:Hm.
  { unfold handle in Hh. simpl in Hh. rewrite Hm in Hh.
    injection Hh as <- <- <-. discriminate. }
  destruct (middleware_gives_session _ _ _ _ _ _ Hm)
    as (s & _ & _ & _ & Hu & Hc & Hs & Ho & _ & Htr & _).
  destruct (handle_register w c b e w1 r tr1 Hm) as (w2 & rp & tr2 & Hr & Hh').
  rewrite Hh in Hh'. injection Hh' as -> -> ->.
  destruct (register_spec w1 e r b)
    as (w'' & rp' & tr' & Hr' & Hs' & Hc' & _ & Hcases).
  rewrite Hr in Hr'. injection Hr' as <- <- <-.
  destruct Hcases as [(-> & un & em & pw & Hun & Hem & Hpw & _ & _ & _ & Hus & ->)
                     |[(-> & _)|(-> & _)]]; [|discriminate..].
  exists un, em, pw. rewrite Hus, Hu, Ho, Hs', Hs.
  split_and!; try done.
  - unfold bound. by rewrite Hs', Hs.
  - intros ev Hev. apply in_app_or in Hev as [Hev|Hev].
    + destruct (Htr ev Hev) as (_ & H1 & _ & H2). done.
    + simpl in Hev. intuition (subst; done).
Qed.

(** *** C5: requests with a missing or empty field *)

(** C5, as the code has it.  A registration in which the username or
    the email is empty or missing, or the password is missing, never
    succeeds and never changes the user collection: it is answered
    400 "User already exists." when the email matches an existing
    user and 500 "Error registering user." otherwise. *)
Theorem register_missing_field_fails (w : world) (c : option string)
    (b : gmap string string) (e : env) :
  sess_get_fails e = false ->
  user_find_fails e = false ->
  required (b !! "username") = false
  \/ required (b !! "email") = false
  \/ b !! "password" = None ->
  exists w' tr resp,
    handle w (mkReq Register c b e) = (w', resp, tr)
    /\ users w' = users w
    /\ ((is_Some (find_by_email (users w) (b !! "email"))
         /\ resp = mkResp 400 "User already exists." None false)
        \/ (find_by_email (users w) (b !! "email") = None
            /\ resp = mkResp 500 "Error registering user." None false)).
Proof using genid_inj.
  intros Hg Hf Hbad.
  destruct (middleware_total w e c Hg) as (w1 & r & tr1 & Hm).
  destruct (middleware_gives_session _ _ _ _ _ _ Hm)
    as (s & _ & _ & _ & Hu & _).
  destruct (handle_register w c b e w1 r tr1 Hm) as (w2 & rp & tr2 & Hr & Hh).
  destruct (register_spec w1 e r b)
    as (w'' & rp' & tr' & Hr' & _ & _ & _ & Hcases).
  rewrite Hr in Hr'. injection Hr' as <- <- <-.
  rewrite Hu in Hcases.
  exists w2, (tr1 ++ tr2), (mkResp (reply_status rp) (reply_text rp) None
                              (reply_clear rp)).
  split; [done|].
  destruct Hcases as [(_ & un & em & pw & Hun & Hem & Hpw & Hune & Heme & _)
                     |[(-> & -> & _ & _ & u & Hfind)|(-> & Hus & Hnone)]].
  - exfalso. rewrite Hun, Hem, Hpw in Hbad. simpl in Hbad.
    destruct Hbad as [H|[H|H]]; [| |done];
      apply negb_false_iff, String.eqb_eq in H; done.
  - split; [done|]. left. rewrite Hfind. eauto.
  - split; [by rewrite Hus|]. right. split; [auto|done].
Qed.

(** *** Login *)

(** After [regenerate] the session has a new id: the end of the
    response saves it and announces it in a cookie, unless the cookie
    is [secure]. *)
Lemma commit_regenerated (w : world) (e : env) (r : reqctx)
    (new : string) (s : session) :
  originalId r <> new ->
  commit w e (set_session r new (Some s))
  = (if sess_set_fails e then w
     else set_sessions w (<[new := s]> (sessions w)),
     if production then None else Some new, [SessionSet new s]).
Proof.
  intros Hne. unfold commit, shouldSave, shouldSetCookie, isModified, isSaved,
    saveUninitialized, rolling, cookie_secure, issecure. simpl.
  rewrite (bool_decide_eq_false_2 (originalId r = new)) by done. simpl.
  destruct production; by repeat case_bool_decide.
Qed.

(** The id of the session that the middleware hands over was issued,
    counting the id it may just have drawn. *)
Lemma middleware_sid (w : world) (e : env) (c : option string)
    (w1 : world) (r : reqctx) (tr : list event) :
  wf w ->
  session_middleware w e c = inr (w1, r, tr) ->
  wf w1 /\ issued w1 (sessionID r) /\ next_sid w <= next_sid w1
  /\ (forall sid, getcookie w c = Some sid -> is_Some (sessions w !! sid) ->
      sessionID r = sid)
  /\ (sessions w !! sessionID r = None -> sessionID r = genid (next_sid w)).
Proof using genid_inj.
  intros Hwf Hm.
  destruct (middleware_gives_session _ _ _ _ _ _ Hm)
    as (s & _ & _ & _ & _ & _ & Hs & _ & Hck & _ & Hc).
  destruct Hc as [(Hc & _ & Hl & ->)|(_ & _ & Hid & -> & Hn)].
  - split_and!; try done.
    + apply Hwf. rewrite Hl. eauto.
    + intros sid Hsid _. rewrite <- Hck, Hc in Hsid. congruence.
    + intros Hnone. congruence.
  - split_and!.
    + intros sid Hsome. destruct (Hwf sid Hsome) as (k & Hk & ->).
      exists k. simpl. split; [lia|done].
    + exists (next_sid w). simpl. split; [lia|done].
    + simpl. lia.
    + intros sid Hsid [x Hx]. rewrite <- Hck in Hsid.
      rewrite (Hn sid Hsid) in Hx. done.
    + done.
Qed.

(** A login whose email is found and whose password verifies, through
    the whole application, for both outcomes of [regenerate]. *)
Lemma handle_login_verified (w : world) (c : option string)
    (b : gmap string string) (e : env)
    (w1 : world) (r : reqctx) (tr1 : list event) (u : user) (p : string) :
  session_middleware w e c = inr (w1, r, tr1) ->
  issued w1 (sessionID r) ->
  user_find_fails e = false ->
  find_by_email (users w) (b !! "email") = Some u ->
  b !! "password" = Some p ->
  bcrypt_compare p (password u) = true ->
  let old := sessionID r in
  let new := genid (next_sid w1) in
  let pre := tr1 ++ [UserFindOne (b !! "email");
                     BcryptCompare (Some p) (password u)] in
  handle w (mkReq Login c b e)
  = if sess_destroy_fails e then
      (saved (bump_sid w1) e new empty_session,
       mkResp 500 "Error logging in."
         (if production then None else Some new) false,
       pre ++ [SessionDestroy old; SessionGenerate new;
               SessionSet new empty_session])
    else
      (saved (bump_sid (set_sessions w1 (delete old (sessions w1)))) e new
         (mkSession (Some (_id u))),
       mkResp 200 "Login successful!"
         (if production then None else Some new) false,
       pre ++ [SessionDestroy old; SessionGenerate new;
               SessionAssignUserId new (_id u);
               SessionSet new (mkSession (Some (_id u)))]).
Proof using genid_inj.
  intros Hm Hiss Hf Hfind Hp Hcmp old new pre.
  destruct (middleware_gives_session _ _ _ _ _ _ Hm)
    as (s & Hs & Ho & _ & Hu & _).
  assert (originalId r <> new) as Hne.
  { rewrite Ho. unfold new. intros Heq.
    apply (issued_not_next w1 _ 0) in Hiss. by rewrite Nat.add_0_r in Hiss. }
  unfold handle; simpl. rewrite Hm.
  unfold dispatch, login, User_findOne, bcrypt_compare_js; simpl.
  rewrite Hf, Hu, Hfind, Hp, Hcmp, Hs.
  unfold session_regenerate, store_destroy.
  destruct (sess_destroy_fails e); simpl.
  - fold new. rewrite commit_regenerated by done. unfold saved, pre.
    rewrite <- !app_assoc. reflexivity.
  - fold new. rewrite commit_regenerated by done. unfold saved, pre.
    rewrite <- !app_assoc. reflexivity.
Qed.

(** *** C1: login regenerates the session *)

(** C1.  On every successful login (email found, password verifies,
    the stores answer) the trace reads: destroy the current session
    id [old], generate the id [new], and only then assign the user
    id to the session under [new]; no user id is assigned earlier in
    the request.  [old] is the id of the request's cookie when that
    cookie names a stored session, and its record is gone from the
    store afterwards.  [new] was never issued before, is not in the
    store before the request, and differs from the session id of the
    request's cookie and from every id issued earlier.  [new] is the
    id that the response sets in the cookie, except in production
    mode: there the cookie is [secure], the connection is not, and
    the response carries no cookie at all. *)
Theorem login_regenerates_session (w : world) (c : option string)
    (b : gmap string string) (e : env) (u : user) (p : string) :
  wf w ->
  sess_get_fails e = false ->
  user_find_fails e = false ->
  sess_destroy_fails e = false ->
  find_by_email (users w) (b !! "email") = Some u ->
  b !! "password" = Some p ->
  bcrypt_compare p (password u) = true ->
  exists w' pre old new,
    handle w (mkReq Login c b e)
    = (w', mkResp 200 "Login successful!"
             (if production then None else Some new) false,
       pre ++ [SessionDestroy old; SessionGenerate new;
               SessionAssignUserId new (_id u);
               SessionSet new (mkSession (Some (_id u)))])
    /\ (forall ev, In ev pre -> is_assign ev = false)
    /\ (forall sid, getcookie w c = Some sid ->
          is_Some (sessions w !! sid) -> old = sid)
    /\ sessions w' !! old = None
    /\ sessions w !! new = None
    /\ (forall sid, issued w sid -> new <> sid)
    /\ (forall sid, getcookie w c = Some sid ->
          new <> sid /\ sessions w' !! sid = None)
    /\ (sess_set_fails e = false -> bound w' new = Some (_id u))
    /\ (forall sid, sid <> new -> sid <> old ->
          sessions w' !! sid = sessions w !! sid).
Proof using genid_inj.
  intros Hwf Hg Hf Hd Hfind Hp Hcmp.
  destruct (middleware_total w e c Hg) as (w1 & r & tr1 & Hm).
  destruct (middleware_sid _ _ _ _ _ _ Hwf Hm)
    as (Hwf1 & Hiss & Hle & Hold & Hgen).
  destruct (middleware_gives_session _ _ _ _ _ _ Hm)
    as (s & _ & _ & _ & _ & _ & Hs & _ & Hck & Htr & Hc).
  pose proof (handle_login_verified w c b e w1 r tr1 u p
                Hm Hiss Hf Hfind Hp Hcmp) as Hh.
  simpl in Hh. rewrite Hd in Hh.
  set (old := sessionID r) in *. set (new := genid (next_sid w1)) in *.
  assert (new <> old) as Hno.
  { intros Heq. apply (issued_not_next w1 _ 0) in Hiss.
    rewrite Nat.add_0_r in Hiss. by apply Hiss. }
  assert (forall sid, issued w sid -> new <> sid) as Hfresh.
  { intros sid (k & Hk & ->) Heq. apply genid_inj in Heq. lia. }
  assert (sessions w !! new = None) as Hnew.
  { destruct (sessions w !! new) eqn:E; [|done]. exfalso.
    apply (Hfresh new); [apply Hwf; rewrite E; eauto|done]. }
  eexists _, _, old, new. split; [exact Hh|].
  assert (forall sid, sessions
            (saved (bump_sid (set_sessions w1 (delete old (sessions w1))))
               e new (mkSession (Some (_id u)))) !! sid
          = if sess_set_fails e then delete old (sessions w) !! sid
            else <[new := mkSession (Some (_id u))]>
                   (delete old (sessions w)) !! sid) as Hlk.
  { intros sid. unfold saved. destruct (sess_set_fails e); simpl; by rewrite Hs. }
  split_and!.
  - intros ev Hev. apply in_app_or in Hev as [Hev|Hev].
    + by destruct (Htr ev Hev) as (_ & H & _).
    + simpl in Hev. intuition (subst; done).
  - exact Hold.
  - rewrite Hlk. destruct (sess_set_fails e).
    + apply lookup_delete_eq.
    + rewrite lookup_insert_ne by done. apply lookup_delete_eq.
  - exact Hnew.
  - exact Hfresh.
  - intros sid Hsid. apply getcookie_issued in Hsid as Hi. destruct Hi as [_ Hi].
    split; [by apply Hfresh|]. rewrite Hlk.
    assert (sessions w !! sid = None \/ old = sid) as Hcase.
    { destruct (sessions w !! sid) eqn:E; [right|by left].
      apply Hold; [done|]. rewrite E. eauto. }
    assert (delete old (sessions w) !! sid = None) as Hdel.
    { destruct Hcase as [Hn| ->]; [|apply lookup_delete_eq].
      rewrite lookup_delete. case_decide; done. }
    destruct (sess_set_fails e); [done|].
    rewrite lookup_insert_ne; [done|]. by apply Hfresh.
  - intros Hset. unfold bound. rewrite Hlk, Hset.
    by rewrite lookup_insert_eq.
  - intros sid H1 H2. rewrite Hlk. destruct (sess_set_fails e).
    + by rewrite lookup_delete_ne.
    + rewrite lookup_insert_ne by done. by rewrite lookup_delete_ne.
Qed.

(** *** C6: a failed regeneration aborts the login *)

(** C6.  When the email is found and the password verifies but
    [regenerate] reports an error, the login is answered 500 "Error
    logging in.", the trace assigns no user id to any session, and
    every user id bound to a session id afterwards was bound to it
    before the request. *)
Theorem login_regenerate_failure (w : world) (c : option string)
    (b : gmap string string) (e : env) (u : user) (p : string) :
  wf w ->
  sess_get_fails e = false ->
  user_find_fails e = false ->
  sess_destroy_fails e = true ->
  find_by_email (users w) (b !! "email") = Some u ->
  b !! "password" = Some p ->
  bcrypt_compare p (password u) = true ->
  exists w' resp tr,
    handle w (mkReq Login c b e) = (w', resp, tr)
    /\ status resp = 500 /\ text resp = "Error logging in."
    /\ (forall ev, In ev tr -> is_assign ev = false)
    /\ (forall sid v, bound w' sid = Some v -> bound w sid = Some v)
    /\ users w' = users w.
Proof using genid_inj.
  intros Hwf Hg Hf Hd Hfind Hp Hcmp.
  destruct (middleware_total w e c Hg) as (w1 & r & tr1 & Hm).
  destruct (middleware_sid _ _ _ _ _ _ Hwf Hm) as (_ & Hiss & _).
  destruct (middleware_gives_session _ _ _ _ _ _ Hm)
    as (s & _ & _ & _ & Hu & _ & Hs & _ & _ & Htr & _).
  pose proof (handle_login_verified w c b e w1 r tr1 u p
                Hm Hiss Hf Hfind Hp Hcmp) as Hh.
  simpl in Hh. rewrite Hd in Hh.
  do 3 eexists. split; [exact Hh|]. simpl. split_and!; try done.
  - intros ev Hev. apply in_app_or in Hev as [Hev|Hev].
    + apply in_app_or in Hev as [Hev|Hev].
      * by destruct (Htr ev Hev) as (_ & H & _).
      * simpl in Hev. intuition (subst; done).
    + simpl in Hev. intuition (subst; done).
  - intros sid v. unfold bound, saved.
    destruct (sess_set_fails e); simpl; rewrite Hs; [done|].
    rewrite lookup_insert. case_decide; [done|done].
  - unfold saved. destruct (sess_set_fails e); simpl; done.
Qed.

(** *** What one request can do to the session store *)

(** Routes other than [/login] and [/logout] hand back the request
    context and the session store as they got them. *)
Lemma dispatch_quiet (w1 : world) (r : reqctx) (q : request) :
  req_route q <> Login -> req_route q <> Logout ->
  exists w2 rp tr2,
    dispatch w1 r q = (w2, r, rp, tr2)
    /\ sessions w2 = sessions w1 /\ next_sid w2 = next_sid w1
    /\ forall ev, In ev tr2 -> is_assign ev = false.
Proof.
  intros H1 H2. unfold dispatch. destruct (req_route q); try done.
  - destruct (register_spec w1 (req_env q) r (req_body q))
      as (w2 & rp & tr2 & Hr & Hs & _ & Hn & Hcases).
    exists w2, rp, tr2. split_and!; try done.
    intros ev Hev.
    destruct Hcases as [(_ & un & em & pw & _ & _ & _ & _ & _ & _ & _ & ->)
                       |[(_ & _ & -> & _)|(_ & _)]].
    + simpl in Hev. intuition (subst; done).
    + simpl in Hev. intuition (subst; done).
    + clear -Hr Hev. unfold register, register_insert in Hr.
      destruct (User_findOne _ _ _) as [|[|]];
        [| |destruct (bcrypt_hash_js _ _ _); [destruct (User_save _ _ _ _ _ _)|]];
        injection Hr as <- <- <-; simpl in Hev; intuition (subst; done).
  - unfold dashboard. destruct (req_session r) as [s|].
    + destruct (userId s); do 3 eexists; (split; [reflexivity|]);
        split_and!; try done.
    + do 3 eexists; (split; [reflexivity|]); split_and!; done.
  - unfold contact_form. destruct (req_session r) as [s|].
    + unfold Contact_save.
      destruct (req_body q !! "name"), (req_body q !! "email"),
        (req_body q !! "message");
        repeat match goal with |- context [if ?c then _ else _] =>
                 destruct c end;
        do 3 eexists; (split; [reflexivity|]); split_and!; try done;
        intros ev Hev; simpl in Hev; intuition (subst; done).
    + do 3 eexists; (split; [reflexivity|]); split_and!; done.
Qed.

(** A login that does not reach [regenerate] does the same. *)
Lemma login_quiet (w1 : world) (e : env) (r : reqctx) (b : gmap string string) :
  (forall u p, user_find_fails e = false ->
     find_by_email (users w1) (b !! "email") = Some u ->
     b !! "password" = Some p -> bcrypt_compare p (password u) = false) ->
  exists rp tr2,
    login w1 e r b = (w1, r, rp, tr2)
    /\ reply_status rp <> 200
    /\ forall ev, In ev tr2 -> is_assign ev = false.
Proof.
  intros Hno. unfold login, User_findOne, bcrypt_compare_js.
  destruct (user_find_fails e) eqn:Hf.
  { do 2 eexists. split; [reflexivity|]. split; [done|].
    intros ev Hev; simpl in Hev; intuition (subst; done). }
  destruct (find_by_email (users w1) (b !! "email")) as [u|] eqn:Hfind.
  2:{ do 2 eexists. split; [reflexivity|]. split; [done|].
      intros ev Hev; simpl in Hev; intuition (subst; done). }
  destruct (b !! "password") as [p|] eqn:Hp.
  2:{ do 2 eexists. split; [reflexivity|]. split; [done|].
      intros ev Hev; simpl in Hev; intuition (subst; done). }
  rewrite (Hno u p) by done.
  do 2 eexists. split; [reflexivity|]. split; [done|].
  intros ev Hev; simpl in Hev; intuition (subst; done).
Qed.

(** [/logout] through the whole application. *)
Lemma handle_logout (w : world) (c : option string)
    (b : gmap string string) (e : env)
    (w1 : world) (r : reqctx) (tr1 : list event) :
  session_middleware w e c = inr (w1, r, tr1) ->
  handle w (mkReq Logout c b e)
  = if sess_destroy_fails e then
      (w1, mkResp 500 "Error logging out." None false,
       tr1 ++ [SessionDestroy (sessionID r)])
    else
      (set_sessions w1 (delete (sessionID r) (sessions w1)),
       mkResp 200 "Logout successful!" None true,
       tr1 ++ [SessionDestroy (sessionID r)]).
Proof.
  intros Hm.
  destruct (middleware_gives_session _ _ _ _ _ _ Hm) as (s & Hs & _).
  unfold handle; simpl. rewrite Hm.
  unfold dispatch, logout, session_destroy, store_destroy; simpl. rewrite Hs.
  destruct (sess_destroy_fails e); unfold commit; simpl; reflexivity.
Qed.

Lemma login_verified_dec (w : world) (e : env) (b : gmap string string) :
  (exists u p, user_find_fails e = false
     /\ find_by_email (users w) (b !! "email") = Some u
     /\ b !! "password" = Some p /\ bcrypt_compare p (password u) = true)
  \/ (forall u p, user_find_fails e = false ->
        find_by_email (users w) (b !! "email") = Some u ->
        b !! "password" = Some p -> bcrypt_compare p (password u) = false).
Proof.
  destruct (user_find_fails e); [right; discriminate|].
  destruct (find_by_email (users w) (b !! "email")) as [u|]; [|right; discriminate].
  destruct (b !! "password") as [p|]; [|right; discriminate].
  destruct (bcrypt_compare p (password u)) eqn:E.
  - left. exists u, p. done.
  - right. intros ? ? _ [= <-] [= <-]. done.
Qed.

(** The effect of one request on the session store, id by id: the
    record under [sid] is kept, or removed, or [sid] is an id drawn
    during this request that holds either an empty session or, after
    a successful login, the session of the user who logged in. *)
Lemma handle_delta (w : world) (q : request)
    (w' : world) (resp : response) (tr : list event) :
  wf w ->
  handle w q = (w', resp, tr) ->
  next_sid w <= next_sid w'
  /\ (forall ev, In ev tr -> is_assign ev = true ->
        req_route q = Login /\ status resp = 200)
  /\ forall sid,
       sessions w' !! sid = sessions w !! sid
       \/ sessions w' !! sid = None
       \/ (~ issued w sid /\ issued w' sid
           /\ (sessions w' !! sid = Some empty_session
               \/ exists u p,
                    req_route q = Login
                    /\ resp = mkResp 200 "Login successful!"
                                (if production then None else Some sid) false
                    /\ find_by_email (users w) (req_body q !! "email") = Some u
                    /\ req_body q !! "password" = Some p
                    /\ bcrypt_compare p (password u) = true
                    /\ sessions w' !! sid = Some (mkSession (Some (_id u)))
                    /\ In (SessionAssignUserId sid (_id u)) tr)).
Proof using genid_inj.
  intros Hwf Hh. destruct q as [rt c b e].
  destruct (session_middleware w e c) as [tr0|[[w1 r] tr1]] eqn:Hm.
  { unfold handle in Hh; simpl in Hh. rewrite Hm in Hh.
    injection Hh as <- <- <-. split_and!; [lia| |by left].
    intros ev Hev Ha. exfalso. unfold session_middleware in Hm.
    destruct (getcookie w c); [|done]. destruct (sess_get_fails e).
    - injection Hm as <-. simpl in Hev. intuition (subst; done).
    - by destruct (sessions w !! s). }
  destruct (middleware_sid _ _ _ _ _ _ Hwf Hm) as (Hwf1 & Hiss & Hle & _ & _).
  destruct (middleware_gives_session _ _ _ _ _ _ Hm)
    as (s & _ & _ & _ & Hu & _ & Hs & _ & _ & Htr & Hc).
  assert (forall ev, In ev tr1 -> is_assign ev = true -> False) as Htr1.
  { intros ev Hev Ha. destruct (Htr ev Hev) as (_ & H & _). congruence. }
  assert (rt = Login \/ rt = Logout \/ (rt <> Login /\ rt <> Logout)) as Hrt
    by (destruct rt; auto).
  destruct Hrt as [->|[->|[Hr1 Hr2]]].
  - (* login *)
    simpl. destruct (login_verified_dec w e b) as [(u & p & Hf & Hfind & Hp & Hcmp)|Hno].
    + pose proof (handle_login_verified w c b e w1 r tr1 u p
                    Hm Hiss Hf Hfind Hp Hcmp) as Hh'.
      simpl in Hh'. rewrite Hh in Hh'.
      set (new := genid (next_sid w1)) in *.
      assert (~ issued w new) as Hnew.
      { intros (k & Hk & Heq). apply genid_inj in Heq. lia. }
      assert (issued (bump_sid w1) new) as Hnew'.
      { exists (next_sid w1). simpl. split; [lia|done]. }
      destruct (sess_destroy_fails e); injection Hh' as -> -> ->.
      * split_and!.
        { unfold saved. destruct (sess_set_fails e); simpl; lia. }
        { intros ev Hev Ha. exfalso.
          apply in_app_or in Hev as [Hev|Hev];
            [apply in_app_or in Hev as [Hev|Hev]|]; eauto;
            simpl in Hev; intuition (subst; done). }
        { intros sid. unfold saved.
          destruct (sess_set_fails e); simpl; rewrite Hs; [by left|].
          rewrite lookup_insert. case_decide as Hd; [subst sid|by left].
          right; right. split_and!; [done| |by left].
          exists (next_sid w1). simpl. split; [lia|done]. }
      * split_and!.
        { unfold saved. destruct (sess_set_fails e); simpl; lia. }
        { done. }
        { intros sid. unfold saved.
          destruct (sess_set_fails e); simpl; rewrite Hs.
          - rewrite lookup_delete. case_decide; [by right; left|by left].
          - rewrite lookup_insert. case_decide as Hd; [subst sid|].
            + right; right. split_and!; [done| |right].
              * exists (next_sid w1). simpl. split; [lia|done].
              * exists u, p. simpl. split_and!; try done.
                apply in_or_app. right. simpl. auto.
            + rewrite lookup_delete. case_decide; [by right; left|by left]. }
    + rewrite <- Hu in Hno.
      destruct (login_quiet w1 e r b Hno) as (rp & tr2 & Hl & Hst & Hna).
      rewrite (handle_untouched w (mkReq Login c b e) w1 w1 r rp tr1 tr2 Hm)
        in Hh by (unfold dispatch; simpl; exact Hl).
      injection Hh as <- <- <-. rewrite Hs. split_and!; [done| |by left].
      intros ev Hev Ha. exfalso. apply in_app_or in Hev as [Hev|Hev]; eauto.
      rewrite (Hna ev Hev) in Ha. done.
  - (* logout *)
    rewrite (handle_logout w c b e w1 r tr1 Hm) in Hh. simpl.
    assert (forall ev, In ev (tr1 ++ [SessionDestroy (sessionID r)]) ->
              is_assign ev = true -> False) as Hna.
    { intros ev Hev Ha. apply in_app_or in Hev as [Hev|[<-|[]]]; [eauto|done]. }
    destruct (sess_destroy_fails e); injection Hh as <- <- <-.
    + rewrite Hs. split_and!; [done| |by left].
      intros ev Hev Ha. exfalso. eauto.
    + simpl. rewrite Hs. split_and!; [done| |].
      * intros ev Hev Ha. exfalso. eauto.
      * intros sid. rewrite lookup_delete.
        case_decide; [by right; left|by left].
  - (* register, dashboard, contact *)
    destruct (dispatch_quiet w1 r (mkReq rt c b e) Hr1 Hr2)
      as (w2 & rp & tr2 & Hd & Hs2 & Hn2 & Hna).
    rewrite (handle_untouched w (mkReq rt c b e) w1 w2 r rp tr1 tr2 Hm Hd) in Hh.
    injection Hh as <- <- <-. rewrite Hs2, Hs, Hn2.
    split_and!; [done| |by left].
    intros ev Hev Ha. exfalso. apply in_app_or in Hev as [Hev|Hev]; eauto.
    rewrite (Hna ev Hev) in Ha. done.
Qed.

Lemma issued_mono (w w' : world) (sid : string) :
  next_sid w <= next_sid w' -> issued w sid -> issued w' sid.
Proof. intros Hle (k & Hk & ->). exists k. split; [lia|done]. Qed.

(** [wf] is an invariant of the application. *)
Lemma handle_wf (w : world) (q : request) : wf w -> wf (handle w q).1.1.
Proof using genid_inj.
  intros Hwf. destruct (handle w q) as [[w' resp] tr] eqn:Hh. simpl.
  destruct (handle_delta w q w' resp tr Hwf Hh) as (Hle & _ & Hd).
  intros sid Hsome. destruct (Hd sid) as [Heq|[Hn|(_ & Hi & _)]].
  - rewrite Heq in Hsome. eapply issued_mono; eauto.
  - rewrite Hn in Hsome. by destruct Hsome.
  - done.
Qed.

Lemma handle_retired (w : world) (q : request) (sid : string) :
  retired w sid -> retired (handle w q).1.1 sid.
Proof using genid_inj.
  intros (Hwf & Hi & Hn). split; [by apply handle_wf|].
  destruct (handle w q) as [[w' resp] tr] eqn:Hh. simpl.
  destruct (handle_delta w q w' resp tr Hwf Hh) as (Hle & _ & Hd).
  split; [eapply issued_mono; eauto|].
  destruct (Hd sid) as [Heq|[Hn'|(Hni & _)]]; [congruence|done|done].
Qed.

Lemma serve_retired (qs : list request) (w : world) (sid : string) :
  retired w sid -> retired (serve w qs) sid.
Proof using genid_inj.
  revert w. induction qs as [|q qs IH]; intros w Hr; simpl; [done|].
  apply IH. by apply handle_retired.
Qed.

(** *** C10: only a successful login binds a user id *)

(** C10.  For every request to any of the five endpoints: an
    assignment to [session.userId] occurs in the trace only when the
    request is a [/login] answered 200; and a user id bound to a
    session id after the request either was bound to it before, or
    the request is a [/login] answered 200 for a user whose email
    was found and whose password verified, the session id is the new
    one (set in the cookie, unless production mode withholds the
    cookie) and it had no record before. *)
Theorem only_login_binds_userId (w : world) (q : request)
    (w' : world) (resp : response) (tr : list event) :
  wf w ->
  handle w q = (w', resp, tr) ->
  (forall ev, In ev tr -> is_assign ev = true ->
     req_route q = Login /\ status resp = 200)
  /\ forall sid v, bound w' sid = Some v ->
       bound w sid = Some v
       \/ (req_route q = Login
           /\ resp = mkResp 200 "Login successful!"
                       (if production then None else Some sid) false
           /\ sessions w !! sid = None
           /\ exists u p,
                find_by_email (users w) (req_body q !! "email") = Some u
                /\ req_body q !! "password" = Some p
                /\ bcrypt_compare p (password u) = true
                /\ v = _id u
                /\ In (SessionAssignUserId sid v) tr).
Proof using genid_inj.
  intros Hwf Hh.
  destruct (handle_delta w q w' resp tr Hwf Hh) as (_ & Ha & Hd).
  split; [exact Ha|].
  intros sid v Hb. unfold bound in *.
  destruct (Hd sid) as [Heq|[Hn|(Hni & _ & [He|(u & p & Hr & -> & Hf & Hp & Hc & Hl & Hin)])]].
  - left. by rewrite <- Heq.
  - by rewrite Hn in Hb.
  - by rewrite He in Hb.
  - right. rewrite Hl in Hb. simpl in Hb. injection Hb as <-.
    split_and!; try done.
    + destruct (sessions w !! sid) eqn:E; [|done].
      exfalso. apply Hni, Hwf. rewrite E. eauto.
    + exists u, p. done.
Qed.

(** *** C7: logout *)

(** C7.  A logout answered 200 removes the whole record stored under
    the cookie's session id and tells the client to clear the
    cookie; after it, whatever requests are served in between, a
    request to [/dashboard] that presents the old cookie is never
    answered 200, and it is answered 401 "Unauthorized. Please log
    in." whenever the session store can be read. *)
Theorem logout_invalidates_cookie (w : world) (sid : string)
    (b : gmap string string) (e : env) :
  wf w ->
  issued w sid ->
  status (handle w (mkReq Logout (Some sid) b e)).1.2 = 200 ->
  let w1 := (handle w (mkReq Logout (Some sid) b e)).1.1 in
  (handle w (mkReq Logout (Some sid) b e)).1.2
  = mkResp 200 "Logout successful!" None true
  /\ sessions w1 !! sid = None
  /\ forall qs b' e',
       let resp := (handle (serve w1 qs) (mkReq Dashboard (Some sid) b' e')).1.2 in
       status resp <> 200
       /\ (sess_get_fails e' = false ->
           resp = mkResp 401 "Unauthorized. Please log in." None false).
Proof using genid_inj.
  intros Hwf Hi Hst w1.
  assert (getcookie w (Some sid) = Some sid) as Hck.
  { simpl. apply was_issued_spec in Hi. by rewrite Hi. }
  assert ((handle w (mkReq Logout (Some sid) b e)).1.2
          = mkResp 200 "Logout successful!" None true
          /\ sessions w1 !! sid = None) as [Hresp Hgone].
  { subst w1.
    destruct (session_middleware w e (Some sid)) as [tr0|[[w0 r] tr1]] eqn:Hm.
    { unfold handle in *; simpl in *. rewrite Hm in Hst. discriminate. }
    rewrite (handle_logout w (Some sid) b e w0 r tr1 Hm) in *.
    destruct (sess_destroy_fails e); [discriminate|]. simpl. split; [done|].
    destruct (middleware_gives_session _ _ _ _ _ _ Hm)
      as (s & _ & _ & _ & _ & _ & Hs & _ & Hc & _ & Hcase).
    rewrite Hs. rewrite Hck in Hc.
    destruct Hcase as [(Hc' & _)|(_ & _ & _ & _ & Hn)].
    - rewrite Hc in Hc'. injection Hc' as ->. apply lookup_delete_eq.
    - rewrite lookup_delete. case_decide; [done|]. by apply Hn. }
  split; [done|]. split; [done|].
  intros qs b' e'.
  assert (retired w1 sid) as Hr1.
  { split; [by apply handle_wf|]. split; [|done].
    subst w1. destruct (handle w (mkReq Logout (Some sid) b e))
      as [[w' resp'] tr'] eqn:Hh.
    destruct (handle_delta _ _ _ _ _ Hwf Hh) as (Hle & _). simpl.
    eapply issued_mono; eauto. }
  destruct (serve_retired qs w1 sid Hr1) as (Hwf2 & Hi2 & Hn2).
  set (w2 := serve w1 qs) in *.
  destruct (sess_get_fails e') eqn:Hg.
  - split; [|done]. unfold handle, session_middleware; simpl.
    apply was_issued_spec in Hi2. rewrite Hi2, Hg. simpl. done.
  - rewrite (handle_dashboard w2 (Some sid) b' e' Hwf2 Hg). simpl.
    unfold bound. rewrite Hn2. split; done.
Qed.

(** *** C4: two registrations racing for one email *)

(** C4.  When two [/register] requests for the same email both pass
    the existence check and the first insert succeeds, the second
    request ends in the [catch] of line 120: it is answered 500
    "Error registering user.", not 400 "User already exists.". *)
Theorem register_race_second_insert_500 (w : world)
    (ea : env) (ba : gmap string string)
    (eb : env) (bb : gmap string string) :
  user_find_fails ea = false ->
  user_find_fails eb = false ->
  find_by_email (users w) (ba !! "email") = None ->
  bb !! "email" = ba !! "email" ->
  (register_insert w ea ba).1.2 = send 201 "User registered successfully!" ->
  exists w2,
    register_interleaved w ea ba eb bb
    = (w2, Some (send 201 "User registered successfully!"),
           Some (send 500 "Error registering user."))
    /\ send 500 "Error registering user." <> send 400 "User already exists."
    /\ users w2 = users (register_insert w ea ba).1.1.
Proof.
  intros Hfa Hfb Hnone Heq Hok.
  unfold register_interleaved, register_rest, User_findOne.
  rewrite Hfa, Hfb, Heq, Hnone.
  destruct (register_insert w ea ba) as [[w1 ra] tra] eqn:Ha. simpl in Hok.
  subst ra.
  assert (exists em, ba !! "email" = Some em
            /\ existsb (fun x => String.eqb (email x) em) (users w1) = true)
    as (em & Hem & Hex).
  { unfold register_insert, bcrypt_hash_js, User_save in Ha.
    destruct (ba !! "password") as [pw|]; [|by injection Ha].
    destruct (required (ba !! "username") && required (ba !! "email")
              && required (Some (bcrypt_hash pw 10 (salt ea)))); [|by injection Ha].
    destruct (ba !! "username") as [un|]; [|by injection Ha].
    destruct (ba !! "email") as [em|]; [|by injection Ha].
    destruct (existsb _ _); [by injection Ha|].
    destruct (user_insert_fails ea); [by injection Ha|].
    injection Ha as <- _. exists em. split; [done|]. simpl.
    rewrite existsb_app. simpl. rewrite String.eqb_refl.
    by rewrite orb_true_r. }
  assert (exists w2 trb,
            register_insert w1 eb bb
            = (w2, send 500 "Error registering user.", trb)
            /\ users w2 = users w1) as (w2 & trb & Hb & Hus).
  { unfold register_insert, bcrypt_hash_js, User_save.
    destruct (bb !! "password") as [pw|]; [|eauto].
    destruct (required (bb !! "username") && required (bb !! "email")
              && required (Some (bcrypt_hash pw 10 (salt eb)))); [|eauto].
    rewrite Heq, Hem.
    destruct (bb !! "username") as [un|]; [|eauto].
    simpl. rewrite Hex. eauto. }
  simpl. rewrite Hb. exists w2. split_and!; done.
Qed.

(** ** Further properties of the handlers *)

Ltac break_match :=
  repeat match goal with
         | |- context [match ?x with _ => _ end] => destruct x eqn:?
         end.

Lemma find_by_email_Some (us : list user) (em : option string) (u : user) :
  find_by_email us em = Some u -> In u us /\ em = Some (email u).
Proof.
  unfold find_by_email. destruct em as [m|]; [|done].
  intros H. apply find_some in H as [Hin Heq].
  apply String.eqb_eq in Heq. by subst.
Qed.

Lemma find_by_email_app (us l : list user) (em : option string) (u : user) :
  find_by_email us em = Some u -> find_by_email (us ++ l) em = Some u.
Proof.
  unfold find_by_email. destruct em as [m|]; [|done].
  induction us as [|x us IH]; simpl; [done|].
  destruct (String.eqb (email x) m); [done|exact IH].
Qed.

Lemma find_by_email_new (us : list user) (u : user) :
  find_by_email us (Some (email u)) = None ->
  find_by_email (us ++ [u]) (Some (email u)) = Some u.
Proof.
  simpl. induction us as [|x us IH]; simpl.
  - by rewrite String.eqb_refl.
  - destruct (String.eqb (email x) (email u)); [done|exact IH].
Qed.

Lemma existsb_email_In (us : list user) (m : string) :
  existsb (fun x => String.eqb (email x) m) us = false <->
  ~ In m (map email us).
Proof.
  induction us as [|x us IH]; simpl; [tauto|].
  destruct (String.eqb (email x) m) eqn:E; simpl.
  - apply String.eqb_eq in E. split; [done|]. intros H. exfalso. auto.
  - apply String.eqb_neq in E. rewrite IH. tauto.
Qed.

(** The end of the response touches the session store only. *)
Lemma commit_frame (w : world) (e : env) (r : reqctx) :
  users (commit w e r).1.1 = users w
  /\ contacts (commit w e r).1.1 = contacts w
  /\ next_oid (commit w e r).1.1 = next_oid w
  /\ next_sid (commit w e r).1.1 = next_sid w.
Proof. unfold commit. break_match; simpl; done. Qed.

(** Lines 114-123 in full: the insert succeeds exactly when the hasher
    accepted the password and [save] found nothing to object to. *)
Lemma register_insert_spec (w : world) (e : env) (b : gmap string string) :
  exists w' rp tr,
    register_insert w e b = (w', rp, tr)
    /\ sessions w' = sessions w /\ contacts w' = contacts w
    /\ next_sid w' = next_sid w
    /\ ((rp = send 201 "User registered successfully!"
         /\ exists un em pw,
             b !! "username" = Some un /\ b !! "email" = Some em
             /\ b !! "password" = Some pw
             /\ un <> "" /\ em <> "" /\ bcrypt_hash pw 10 (salt e) <> ""
             /\ ~ In em (map email (users w))
             /\ user_insert_fails e = false
             /\ users w'
                = users w ++ [mkUser (ObjectId (next_oid w)) un em
                                (bcrypt_hash pw 10 (salt e))])
        \/ (rp = send 500 "Error registering user."
            /\ users w' = users w
            /\ (b !! "password" = None
                \/ required (b !! "username") = false
                \/ required (b !! "email") = false
                \/ (exists pw, b !! "password" = Some pw
                      /\ bcrypt_hash pw 10 (salt e) = "")
                \/ (exists em, b !! "email" = Some em
                      /\ In em (map email (users w)))
                \/ user_insert_fails e = true))).
Proof.
  unfold register_insert, bcrypt_hash_js.
  destruct (b !! "password") as [pw|] eqn:Hpw; last first.
  { do 3 eexists. split; [reflexivity|]. split_and!; try done.
    right. split_and!; auto. }
  unfold User_save.
  destruct (required (b !! "username")) eqn:Hun; simpl; last first.
  { do 3 eexists. split; [reflexivity|]. split_and!; try done.
    right. split_and!; auto. }
  destruct (required (b !! "email")) eqn:Hem; simpl; last first.
  { do 3 eexists. split; [reflexivity|]. split_and!; try done.
    right. split_and!; auto. }
  destruct (String.eqb (bcrypt_hash pw 10 (salt e)) "") eqn:Hh; simpl.
  { apply String.eqb_eq in Hh.
    do 3 eexists. split; [reflexivity|]. split_and!; try done.
    right. split_and!; eauto 10. }
  apply String.eqb_neq in Hh.
  apply required_Some in Hun as (un & Hun & Hune).
  apply required_Some in Hem as (em & Hem & Heme).
  rewrite Hun, Hem.
  destruct (existsb (fun x => String.eqb (email x) em) (users w)) eqn:Hex.
  { do 3 eexists. split; [reflexivity|]. split_and!; try done.
    right. split_and!; try done. do 4 right. left. exists em. split; [done|].
    apply existsb_exists in Hex as (x & Hx & Heq).
    apply String.eqb_eq in Heq. subst em. by apply in_map. }
  apply existsb_email_In in Hex.
  destruct (user_insert_fails e) eqn:Hins.
  { do 3 eexists. split; [reflexivity|]. split_and!; try done.
    right. split_and!; auto 10. }
  do 3 eexists. split; [reflexivity|]. split_and!; try done.
  left. split; [done|]. exists un, em, pw. split_and!; done.
Qed.

Lemma login_frame (w : world) (e : env) (r : reqctx) (b : gmap string string) :
  users (login w e r b).1.1.1 = users w
  /\ contacts (login w e r b).1.1.1 = contacts w
  /\ next_oid (login w e r b).1.1.1 = next_oid w.
Proof.
  unfold login, User_findOne, bcrypt_compare_js, session_regenerate,
    store_destroy.
  destruct (user_find_fails e); [done|].
  destruct (find_by_email (users w) (b !! "email")); [|done].
  destruct (b !! "password"); [|done].
  destruct (bcrypt_compare _ _); [|done].
  destruct (req_session r); [|done].
  destruct (sess_destroy_fails e); done.
Qed.

Lemma logout_frame (w : world) (e : env) (r : reqctx) :
  users (logout w e r).1.1.1 = users w
  /\ contacts (logout w e r).1.1.1 = contacts w
  /\ next_oid (logout w e r).1.1.1 = next_oid w.
Proof.
  unfold logout, session_destroy, store_destroy.
  destruct (req_session r); [|done].
  destruct (sess_destroy_fails e); done.
Qed.

(** [/contact] in full. *)
Lemma contact_form_spec (w : world) (e : env) (r : reqctx)
    (b : gmap string string) (s : session) :
  req_session r = Some s ->
  exists w' rp,
    contact_form w e r b = (w', r, rp, [ContactSave])
    /\ users w' = users w /\ sessions w' = sessions w
    /\ next_sid w' = next_sid w /\ next_oid w' = next_oid w
    /\ ((rp = send 201 "Message submitted successfully!"
         /\ exists n m g,
             b !! "name" = Some n /\ b !! "email" = Some m
             /\ b !! "message" = Some g
             /\ n <> "" /\ m <> "" /\ g <> ""
             /\ contact_insert_fails e = false
             /\ contacts w' = contacts w ++ [mkContact n m g (userId s)])
        \/ (rp = send 500 "Error submitting message."
            /\ w' = w
            /\ (required (b !! "name") = false
                \/ required (b !! "email") = false
                \/ required (b !! "message") = false
                \/ contact_insert_fails e = true))).
Proof.
  intros Hs. unfold contact_form, Contact_save. rewrite Hs.
  destruct (b !! "name") as [n|] eqn:Hn; last first.
  { do 2 eexists. split; [reflexivity|]. split_and!; try done.
    right. split_and!; auto. }
  destruct (b !! "email") as [m|] eqn:Hm; last first.
  { do 2 eexists. split; [reflexivity|]. split_and!; try done.
    right. split_and!; auto. }
  destruct (b !! "message") as [g|] eqn:Hg; last first.
  { do 2 eexists. split; [reflexivity|]. split_and!; try done.
    right. split_and!; auto. }
  destruct (required (Some n) && required (Some m) && required (Some g))
    eqn:R; last first.
  { do 2 eexists. split; [reflexivity|]. split_and!; try done.
    right. split_and!; try done.
    apply andb_false_iff in R as [R|R]; [|auto].
    apply andb_false_iff in R as [R|R]; auto. }
  apply andb_prop in R as [R Rg]. apply andb_prop in R as [Rn Rm].
  apply required_Some in Rn as (? & [= <-] & ?).
  apply required_Some in Rm as (? & [= <-] & ?).
  apply required_Some in Rg as (? & [= <-] & ?).
  destruct (contact_insert_fails e) eqn:Hins.
  { do 2 eexists. split; [reflexivity|]. split_and!; try done.
    right. split_and!; auto. }
  do 2 eexists. split; [reflexivity|]. split_and!; try done.
  left. split; [done|]. exists n, m, g. split_and!; done.
Qed.

(** What one request can do to the two collections. *)
Lemma handle_stores (w : world) (q : request)
    (w' : world) (resp : response) (tr : list event) :
  handle w q = (w', resp, tr) ->
  (users w' = users w
   \/ (req_route q = Register /\ status resp = 201
       /\ exists un em pw,
            req_body q !! "username" = Some un
            /\ req_body q !! "email" = Some em
            /\ req_body q !! "password" = Some pw
            /\ un <> "" /\ em <> ""
            /\ bcrypt_hash pw 10 (salt (req_env q)) <> ""
            /\ ~ In em (map email (users w))
            /\ users w'
               = users w ++ [mkUser (ObjectId (next_oid w)) un em
                               (bcrypt_hash pw 10 (salt (req_env q)))]))
  /\ (contacts w' = contacts w
      \/ (req_route q = Contact /\ status resp = 201
          /\ exists n m g uid,
               req_body q !! "name" = Some n
               /\ req_body q !! "email" = Some m
               /\ req_body q !! "message" = Some g
               /\ n <> "" /\ m <> "" /\ g <> ""
               /\ contacts w' = contacts w ++ [mkContact n m g uid])).
Proof.
  destruct q as [rt c b e]. unfold handle; simpl.
  destruct (session_middleware w e c) as [tr0|[[w1 r] tr1]] eqn:Hm.
  { intros [= <- <- <-]. auto. }
  destruct (middleware_gives_session _ _ _ _ _ _ Hm)
    as (s & Hs & _ & _ & Hu & Hc & _ & Ho & _).
  destruct (dispatch w1 r (mkReq rt c b e)) as [[[w2 r2] rp] tr2] eqn:Hd.
  destruct (commit_frame w2 e r2) as (Hu3 & Hc3 & _).
  destruct (commit w2 e r2) as [[w3 ck] tr3] eqn:Hcm. simpl in Hu3, Hc3.
  intros [= <- <- <-]. simpl. rewrite Hu3, Hc3, <- Hu, <- Hc, <- Ho.
  unfold dispatch in Hd; simpl in Hd. destruct rt.
  - (* register *)
    unfold register in Hd.
    destruct (User_findOne w1 e (b !! "email")) as [|[u|]];
      [injection Hd as <- <- <- <-; auto..|].
    destruct (register_insert_spec w1 e b)
      as (w4 & rp4 & tr4 & Hr & _ & Hc4 & _ & Hcases).
    rewrite Hr in Hd. injection Hd as <- <- <- <-.
    split; [|by left].
    destruct Hcases as [(-> & un & em & pw & H)|(_ & -> & _)]; [|by left].
    right. split_and!; [done|done|]. exists un, em, pw.
    destruct H as (? & ? & ? & ? & ? & ? & ? & ? & ?). split_and!; done.
  - (* login *)
    destruct (login_frame w1 e r b) as (H1 & H2 & _).
    rewrite Hd in H1, H2. simpl in H1, H2. auto.
  - (* logout *)
    destruct (logout_frame w1 e r) as (H1 & H2 & _).
    rewrite Hd in H1, H2. simpl in H1, H2. auto.
  - (* dashboard *)
    unfold dashboard in Hd. rewrite Hs in Hd.
    destruct (userId s); injection Hd as <- <- <- <-; auto.
  - (* contact *)
    destruct (contact_form_spec w1 e r b s Hs)
      as (w4 & rp4 & Hcf & Hu4 & _ & _ & _ & Hcases).
    rewrite Hcf in Hd. injection Hd as <- <- <- <-.
    split; [by left|].
    destruct Hcases as [(-> & n & m & g & H)|(_ & -> & _)]; [|by left].
    right. split_and!; [done|done|]. exists n, m, g, (userId s).
    destruct H as (? & ? & ? & ? & ? & ? & ? & ?). split_and!; done.
Qed.

(** *** X1: the collections only grow *)

(** X1.  No request removes or changes a stored user or contact.  The
    user collection changes only through a [/register] answered 201,
    which appends exactly one record; the contact collection changes
    only through a [/contact] answered 201, which appends exactly
    one. *)
Theorem stores_append_only (w : world) (q : request) :
  (users (handle w q).1.1 = users w
   \/ (req_route q = Register /\ status (handle w q).1.2 = 201
       /\ exists u, users (handle w q).1.1 = users w ++ [u]))
  /\ (contacts (handle w q).1.1 = contacts w
      \/ (req_route q = Contact /\ status (handle w q).1.2 = 201
          /\ exists k, contacts (handle w q).1.1 = contacts w ++ [k])).
Proof.
  destruct (handle w q) as [[w' resp] tr] eqn:Hh.
  destruct (handle_stores w q w' resp tr Hh) as [Hu Hc]. simpl. split.
  - destruct Hu as [Hu|(Hr & Hst & un & em & pw & H)]; [by left|].
    right. split_and!; [done..|]. eexists. apply H.
  - destruct Hc as [Hc|(Hr & Hst & n & m & g & uid & H)]; [by left|].
    right. split_and!; [done..|]. eexists. apply H.
Qed.

(** *** X2, X3: what the user collection always satisfies *)

Lemma users_ok_same (w w' : world) :
  users w' = users w -> users_ok w -> users_ok w'.
Proof. unfold users_ok. by intros ->. Qed.

Lemma users_ok_snoc (w w' : world) (u : user) :
  users w' = users w ++ [u] ->
  ~ In (email u) (map email (users w)) ->
  username u <> "" -> email u <> "" -> password u <> "" ->
  users_ok w -> users_ok w'.
Proof.
  unfold users_ok. intros -> Hnew Hun Hem Hpw [Hnd Hall]. split.
  - rewrite map_app. simpl. apply NoDup_app. split_and!.
    + done.
    + intros x Hx Hx'. apply list_elem_of_In in Hx.
      apply list_elem_of_In in Hx'. destruct Hx' as [<-|[]]. done.
    + apply NoDup_singleton.
  - intros x Hx. apply in_app_or in Hx as [Hx|[<-|[]]]; [by apply Hall|done].
Qed.

Lemma register_insert_users_ok (w : world) (e : env) (b : gmap string string) :
  users_ok w -> users_ok (register_insert w e b).1.1.
Proof.
  intros Hok.
  destruct (register_insert_spec w e b) as (w' & rp & tr & Hr & _ & _ & _ & Hc).
  rewrite Hr. simpl.
  destruct Hc as [(_ & un & em & pw & _ & _ & _ & Hun & Hem & Hh & Hnew & _ & Hus)
                 |(_ & Hus & _)].
  - by eapply users_ok_snoc; [exact Hus|..].
  - by eapply users_ok_same.
Qed.

Lemma handle_users_ok (w : world) (q : request) :
  users_ok w -> users_ok (handle w q).1.1.
Proof.
  intros Hok. destruct (handle w q) as [[w' resp] tr] eqn:Hh. simpl.
  destruct (handle_stores w q w' resp tr Hh) as [[Hu|Hu] _].
  - by eapply users_ok_same.
  - destruct Hu as (_ & _ & un & em & pw & _ & _ & _ & Hun & Hem & Hh' & Hnew & Hus).
    by eapply users_ok_snoc; [exact Hus|..].
Qed.

(** X2.  Starting from a user collection whose emails are pairwise
    distinct and whose records have non-empty username, email and
    password, any sequence of requests leaves a collection with the
    same two properties. *)
Theorem users_ok_invariant (qs : list request) (w : world) :
  users_ok w -> users_ok (serve w qs).
Proof.
  revert w. induction qs as [|q qs IH]; intros w Hok; simpl; [done|].
  apply IH. by apply handle_users_ok.
Qed.

(** The two phases, run without anything in between, are the handler. *)
Lemma register_as_phases (w : world) (e : env) (r : reqctx)
    (b : gmap string string) :
  register_rest w e b (User_findOne w e (b !! "email"))
  = ((register w e r b).1.1.1, (register w e r b).1.2).
Proof.
  unfold register, register_rest.
  destruct (User_findOne w e (b !! "email")) as [|[|]]; try done.
  by destruct (register_insert w e b) as [[w' rp] tr].
Qed.

Lemma register_rest_users_ok (w : world) (e : env) (b : gmap string string)
    (found : store_error + option user) :
  users_ok w -> users_ok (register_rest w e b found).1.
Proof.
  intros Hok. unfold register_rest. destruct found as [|[|]]; try done.
  pose proof (register_insert_users_ok w e b Hok) as H.
  by destruct (register_insert w e b) as [[w' rp] tr].
Qed.

(** X3.  The same holds when two [/register] handlers interleave at
    the existence check: whatever the two bodies and whatever each
    check finds, both handlers run to their end and the unique index
    keeps the emails pairwise distinct. *)
Theorem register_interleaved_users_ok (w : world)
    (ea : env) (ba : gmap string string)
    (eb : env) (bb : gmap string string) :
  users_ok w ->
  users_ok (register_interleaved w ea ba eb bb).1.1.
Proof.
  intros Hok. unfold register_interleaved.
  pose proof (register_rest_users_ok w ea ba
                (User_findOne w ea (ba !! "email")) Hok) as H1.
  destruct (register_rest w ea ba (User_findOne w ea (ba !! "email")))
    as [w1 ra]. simpl in H1.
  pose proof (register_rest_users_ok w1 eb bb
                (User_findOne w eb (bb !! "email")) H1) as H2.
  by destruct (register_rest w1 eb bb (User_findOne w eb (bb !! "email")))
    as [w2 rb].
Qed.

(** *** X4, X5: registration followed by other requests *)

Lemma serve_users_prefix (qs : list request) (w : world) :
  exists l, users (serve w qs) = users w ++ l.
Proof.
  revert w. induction qs as [|q qs IH]; intros w; simpl.
  - exists []. by rewrite app_nil_r.
  - destruct (IH (handle w q).1.1) as (l & Hl). rewrite Hl.
    destruct (handle w q) as [[w' resp] tr] eqn:Hh. simpl.
    destruct (handle_stores w q w' resp tr Hh) as [[Hu|Hu] _].
    + rewrite Hu. eauto.
    + destruct Hu as (_ & _ & un & em & pw & _ & _ & _ & _ & _ & _ & _ & ->).
      rewrite <- app_assoc. eauto.
Qed.

Lemma serve_wf (qs : list request) (w : world) : wf w -> wf (serve w qs).
Proof using genid_inj.
  revert w. induction qs as [|q qs IH]; intros w Hwf; simpl; [done|].
  apply IH. by apply handle_wf.
Qed.

(** What a [/register] answered 201 has done. *)
Lemma register_201 (w : world) (c : option string)
    (b : gmap string string) (e : env) :
  status (handle w (mkReq Register c b e)).1.2 = 201 ->
  exists un em pw,
    b !! "username" = Some un /\ b !! "email" = Some em
    /\ b !! "password" = Some pw
    /\ find_by_email (users w) (Some em) = None
    /\ users (handle w (mkReq Register c b e)).1.1
       = users w ++ [mkUser (ObjectId (next_oid w)) un em
                       (bcrypt_hash pw 10 (salt e))].
Proof using genid_inj.
  intros Hst.
  destruct (session_middleware w e c) as [tr0|[[w1 r] tr1]] eqn:Hm.
  { unfold handle in Hst. simpl in Hst. rewrite Hm in Hst. discriminate. }
  destruct (middleware_gives_session _ _ _ _ _ _ Hm)
    as (s & _ & _ & _ & Hu & _ & _ & Ho & _).
  destruct (handle_register w c b e w1 r tr1 Hm) as (w2 & rp & tr2 & Hr & Hh).
  rewrite Hh in Hst |- *. simpl in Hst |- *.
  destruct (register_spec w1 e r b)
    as (w'' & rp' & tr' & Hr' & _ & _ & _ & Hcases).
  rewrite Hr in Hr'. injection Hr' as <- <- <-.
  destruct Hcases as [(_ & un & em & pw & Hun & Hem & Hpw & _ & _ & Hnone & Hus & _)
                     |[(-> & _)|(-> & _)]]; [|discriminate..].
  exists un, em, pw. rewrite Hus, Hu, Ho. rewrite Hu in Hnone. done.
Qed.

(** X4.  Once a [/register] has been answered 201, every later
    [/register] with the same email is answered 400 "User already
    exists." and stores nothing, whatever its username and password
    and whatever requests were served in between (the session store
    and the user collection being readable). *)
Theorem registered_email_stays_taken (w : world) (c : option string)
    (b : gmap string string) (e : env) (qs : list request)
    (c' : option string) (b' : gmap string string) (e' : env) :
  status (handle w (mkReq Register c b e)).1.2 = 201 ->
  b' !! "email" = b !! "email" ->
  sess_get_fails e' = false ->
  user_find_fails e' = false ->
  let w1 := serve (handle w (mkReq Register c b e)).1.1 qs in
  (handle w1 (mkReq Register c' b' e')).1.2
  = mkResp 400 "User already exists." None false
  /\ users (handle w1 (mkReq Register c' b' e')).1.1 = users w1.
Proof using genid_inj.
  intros Hst Hem' Hg Hf w1.
  destruct (register_201 w c b e Hst)
    as (un & em & pw & _ & Hem & _ & Hnone & Hus).
  set (u := mkUser (ObjectId (next_oid w)) un em (bcrypt_hash pw 10 (salt e))) in *.
  assert (find_by_email (users w1) (b' !! "email") = Some u) as Hfind.
  { rewrite Hem', Hem. subst w1.
    destruct (serve_users_prefix qs (handle w (mkReq Register c b e)).1.1)
      as (l & ->).
    apply find_by_email_app. rewrite Hus.
    by apply (find_by_email_new (users w) u). }
  destruct (middleware_total w1 e' c' Hg) as (w2 & r & tr1 & Hm).
  destruct (middleware_gives_session _ _ _ _ _ _ Hm)
    as (s & _ & _ & _ & Hu & _).
  destruct (handle_register w1 c' b' e' w2 r tr1 Hm) as (w3 & rp & tr2 & Hr & Hh).
  rewrite Hh. simpl.
  destruct (register_spec w2 e' r b')
    as (w'' & rp' & tr' & Hr' & _ & _ & _ & Hcases).
  rewrite Hr in Hr'. injection Hr' as <- <- <-.
  rewrite Hu in Hcases.
  destruct Hcases as [(_ & un' & em' & pw' & _ & Hem'' & _ & _ & _ & Hn & _)
                     |[(-> & -> & _)|(_ & _ & Hn)]].
  - rewrite Hem'' in Hfind. congruence.
  - done.
  - specialize (Hn Hf). congruence.
Qed.

(** X5.  When [compare] accepts the submitted password against the
    hash that registration stored for it, a user who registered with
    answer 201 can log in with the same email and password at any
    later time, whatever requests were served in between: the login
    is answered 200, stores a session under a new id bound to the
    [_id] given to the user at registration, and sets that id in the
    cookie (production mode withholds the cookie). *)
Theorem register_then_login (w : world) (c : option string)
    (b : gmap string string) (e : env) (qs : list request)
    (c' : option string) (b' : gmap string string) (e' : env) :
  (forall pw, b !! "password" = Some pw ->
     bcrypt_compare pw (bcrypt_hash pw 10 (salt e)) = true) ->
  wf w ->
  status (handle w (mkReq Register c b e)).1.2 = 201 ->
  b' !! "email" = b !! "email" ->
  b' !! "password" = b !! "password" ->
  sess_get_fails e' = false -> user_find_fails e' = false ->
  sess_destroy_fails e' = false -> sess_set_fails e' = false ->
  let w1 := serve (handle w (mkReq Register c b e)).1.1 qs in
  exists sid,
    (handle w1 (mkReq Login c' b' e')).1.2
    = mkResp 200 "Login successful!"
        (if production then None else Some sid) false
    /\ bound (handle w1 (mkReq Login c' b' e')).1.1 sid
       = Some (ObjectId (next_oid w)).
Proof using genid_inj.
  intros Hcontract Hwf Hst Hem' Hpw' Hg Hf Hd Hset w1.
  destruct (register_201 w c b e Hst)
    as (un & em & pw & _ & Hem & Hpw & Hnone & Hus).
  set (u := mkUser (ObjectId (next_oid w)) un em (bcrypt_hash pw 10 (salt e))) in *.
  assert (find_by_email (users w1) (b' !! "email") = Some u) as Hfind.
  { rewrite Hem', Hem. subst w1.
    destruct (serve_users_prefix qs (handle w (mkReq Register c b e)).1.1)
      as (l & ->).
    apply find_by_email_app. rewrite Hus.
    by apply (find_by_email_new (users w) u). }
  assert (wf w1) as Hwf1 by (apply serve_wf, handle_wf, Hwf).
  destruct (middleware_total w1 e' c' Hg) as (w2 & r & tr1 & Hm).
  destruct (middleware_sid _ _ _ _ _ _ Hwf1 Hm) as (_ & Hiss & _).
  pose proof Hpw as Hpw0. rewrite <- Hpw' in Hpw0.
  pose proof (handle_login_verified w1 c' b' e' w2 r tr1 u pw
                Hm Hiss Hf Hfind Hpw0 (Hcontract pw Hpw)) as Hh.
  simpl in Hh. rewrite Hd in Hh. rewrite Hh. simpl.
  eexists. split; [reflexivity|].
  unfold bound, saved. rewrite Hset. simpl. by rewrite lookup_insert_eq.
Qed.

(** *** Logins that do not reach [regenerate] *)

Lemma login_unverified (w1 : world) (e : env) (r : reqctx)
    (b : gmap string string) :
  (forall u p, user_find_fails e = false ->
     find_by_email (users w1) (b !! "email") = Some u ->
     b !! "password" = Some p -> bcrypt_compare p (password u) = false) ->
  exists rp tr2,
    login w1 e r b = (w1, r, rp, tr2)
    /\ ((rp = send 400 "Invalid email or password."
         /\ user_find_fails e = false
         /\ (find_by_email (users w1) (b !! "email") = None
             \/ exists u p, find_by_email (users w1) (b !! "email") = Some u
                  /\ b !! "password" = Some p
                  /\ bcrypt_compare p (password u) = false))
        \/ (rp = send 500 "Error logging in."
            /\ (user_find_fails e = true
                \/ exists u, find_by_email (users w1) (b !! "email") = Some u
                     /\ b !! "password" = None))).
Proof.
  intros Hno. unfold login, User_findOne, bcrypt_compare_js.
  destruct (user_find_fails e) eqn:Hf.
  { do 2 eexists. split; [reflexivity|]. right. auto. }
  destruct (find_by_email (users w1) (b !! "email")) as [u|] eqn:Hfind.
  2:{ do 2 eexists. split; [reflexivity|]. left. auto. }
  destruct (b !! "password") as [p|] eqn:Hp.
  2:{ do 2 eexists. split; [reflexivity|]. right. eauto. }
  rewrite (Hno u p) by done.
  do 2 eexists. split; [reflexivity|]. left. split_and!; eauto 10.
Qed.

Lemma handle_login_unverified (w : world) (c : option string)
    (b : gmap string string) (e : env)
    (w1 : world) (r : reqctx) (tr1 : list event) :
  session_middleware w e c = inr (w1, r, tr1) ->
  (forall u p, user_find_fails e = false ->
     find_by_email (users w) (b !! "email") = Some u ->
     b !! "password" = Some p -> bcrypt_compare p (password u) = false) ->
  exists rp tr2,
    handle w (mkReq Login c b e)
    = (w1, mkResp (reply_status rp) (reply_text rp) None false, tr1 ++ tr2)
    /\ ((rp = send 400 "Invalid email or password."
         /\ user_find_fails e = false
         /\ (find_by_email (users w) (b !! "email") = None
             \/ exists u p, find_by_email (users w) (b !! "email") = Some u
                  /\ b !! "password" = Some p
                  /\ bcrypt_compare p (password u) = false))
        \/ (rp = send 500 "Error logging in."
            /\ (user_find_fails e = true
                \/ exists u, find_by_email (users w) (b !! "email") = Some u
                     /\ b !! "password" = None))).
Proof using genid_inj.
  intros Hm Hno.
  destruct (middleware_gives_session _ _ _ _ _ _ Hm)
    as (s & _ & _ & _ & Hu & _).
  rewrite <- Hu in Hno |- *.
  destruct (login_unverified w1 e r b Hno) as (rp & tr2 & Hl & Hcases).
  exists rp, tr2. split; [|exact Hcases].
  rewrite (handle_untouched w (mkReq Login c b e) w1 w1 r rp tr1 tr2 Hm)
    by (unfold dispatch; simpl; exact Hl).
  destruct Hcases as [(-> & _)|(-> & _)]; done.
Qed.

(** *** X6: a login that is answered 400 *)

(** X6.  A login answered 400 has changed nothing: users, contacts and
    sessions are as before, the response is exactly 400 "Invalid email
    or password." with no cookie set or cleared, and the email was
    unknown or the password did not verify. *)
Theorem login_400_changes_nothing (w : world) (c : option string)
    (b : gmap string string) (e : env) :
  wf w ->
  status (handle w (mkReq Login c b e)).1.2 = 400 ->
  (handle w (mkReq Login c b e)).1.2
  = mkResp 400 "Invalid email or password." None false
  /\ users (handle w (mkReq Login c b e)).1.1 = users w
  /\ contacts (handle w (mkReq Login c b e)).1.1 = contacts w
  /\ sessions (handle w (mkReq Login c b e)).1.1 = sessions w
  /\ (find_by_email (users w) (b !! "email") = None
      \/ exists u p, find_by_email (users w) (b !! "email") = Some u
           /\ b !! "password" = Some p
           /\ bcrypt_compare p (password u) = false).
Proof using genid_inj.
  intros Hwf Hst.
  destruct (session_middleware w e c) as [tr0|[[w1 r] tr1]] eqn:Hm.
  { unfold handle in Hst. simpl in Hst. rewrite Hm in Hst. discriminate. }
  destruct (middleware_gives_session _ _ _ _ _ _ Hm)
    as (s & _ & _ & _ & Hu & Hc & Hs & _).
  destruct (login_verified_dec w e b) as [(u & p & Hf & Hfind & Hp & Hcmp)|Hno].
  - exfalso. destruct (middleware_sid _ _ _ _ _ _ Hwf Hm) as (_ & Hiss & _).
    pose proof (handle_login_verified w c b e w1 r tr1 u p
                  Hm Hiss Hf Hfind Hp Hcmp) as Hh.
    simpl in Hh. rewrite Hh in Hst.
    destruct (sess_destroy_fails e); discriminate.
  - destruct (handle_login_unverified w c b e w1 r tr1 Hm Hno)
      as (rp & tr2 & Hh & Hcases).
    rewrite Hh in Hst |- *. simpl in Hst |- *.
    destruct Hcases as [(-> & _ & H)|(-> & _)]; [|discriminate].
    split_and!; done.
Qed.

(** *** X7: a login without a password field *)

(** X7.  When the email of a login matches a stored user and the body
    has no [password] field, [bcrypt.compare] rejects and the [catch]
    answers 500 "Error logging in." (not the 400 of an unknown email);
    no cookie is set and users, contacts and sessions are unchanged. *)
Theorem login_missing_password_is_500 (w : world) (c : option string)
    (b : gmap string string) (e : env) (u : user) :
  sess_get_fails e = false ->
  user_find_fails e = false ->
  find_by_email (users w) (b !! "email") = Some u ->
  b !! "password" = None ->
  (handle w (mkReq Login c b e)).1.2
  = mkResp 500 "Error logging in." None false
  /\ users (handle w (mkReq Login c b e)).1.1 = users w
  /\ contacts (handle w (mkReq Login c b e)).1.1 = contacts w
  /\ sessions (handle w (mkReq Login c b e)).1.1 = sessions w.
Proof using genid_inj.
  intros Hg Hf Hfind Hp.
  destruct (middleware_total w e c Hg) as (w1 & r & tr1 & Hm).
  destruct (middleware_gives_session _ _ _ _ _ _ Hm)
    as (s & _ & _ & _ & Hu & Hc & Hs & _).
  destruct (handle_login_unverified w c b e w1 r tr1 Hm)
    as (rp & tr2 & Hh & Hcases).
  { intros u' p' _ _ Hp'. congruence. }
  rewrite Hh. simpl.
  destruct Hcases as [(-> & _ & [Hn|(u' & p' & _ & Hp' & _)])|(-> & _)];
    [congruence|congruence|done].
Qed.

(** *** X8: logout touches one session *)

Lemma wf_next_fresh (w : world) : wf w -> sessions w !! genid (next_sid w) = None.
Proof using genid_inj.
  intros Hwf. destruct (sessions w !! genid (next_sid w)) eqn:E; [|done].
  exfalso. apply (issued_not_next w (genid (next_sid w)) 0).
  - apply Hwf. rewrite E. eauto.
  - by rewrite Nat.add_0_r.
Qed.

(** X8.  When the session store answers, [/logout] is answered 200
    "Logout successful!" with the cookie cleared, whether or not the
    request names a session; the session store afterwards is the one
    before with the record under the cookie's id deleted (unchanged
    when there is no cookie), so every other session is kept, and
    users and contacts are unchanged. *)
Theorem logout_deletes_only_own_session (w : world) (c : option string)
    (b : gmap string string) (e : env) :
  wf w ->
  sess_get_fails e = false ->
  sess_destroy_fails e = false ->
  (handle w (mkReq Logout c b e)).1.2
  = mkResp 200 "Logout successful!" None true
  /\ sessions (handle w (mkReq Logout c b e)).1.1
     = match c with
       | Some sid => delete sid (sessions w)
       | None => sessions w
       end
  /\ users (handle w (mkReq Logout c b e)).1.1 = users w
  /\ contacts (handle w (mkReq Logout c b e)).1.1 = contacts w.
Proof using genid_inj.
  intros Hwf Hg Hd.
  destruct (middleware_total w e c Hg) as (w1 & r & tr1 & Hm).
  destruct (middleware_gives_session _ _ _ _ _ _ Hm)
    as (s & _ & _ & _ & Hu & Hc & Hs & _ & Hck & _ & Hcase).
  rewrite (handle_logout w c b e w1 r tr1 Hm), Hd. simpl.
  rewrite Hs, Hu, Hc. split_and!; try done.
  destruct Hcase as [(Hc' & _)|(_ & _ & Hid & _ & Hn)].
  - rewrite Hck in Hc'. apply getcookie_issued in Hc' as [-> _]. done.
  - rewrite Hid, (delete_id _ _ (wf_next_fresh w Hwf)).
    destruct c as [sid|]; [|done]. symmetry. apply delete_id.
    destruct (getcookie w (Some sid)) as [x|] eqn:E.
    + apply getcookie_issued in E as E'. destruct E' as [[= <-] _].
      apply Hn. by rewrite Hck.
    + destruct (sessions w !! sid) eqn:El; [|done]. exfalso.
      assert (issued w sid) as Hi by (apply Hwf; rewrite El; eauto).
      apply was_issued_spec in Hi. simpl in E. by rewrite Hi in E.
Qed.

(** *** X9: who gets a session cookie *)

Lemma dispatch_clear (w : world) (r : reqctx) (q : request)
    (w2 : world) (r2 : reqctx) (rp : reply) (tr2 : list event) :
  dispatch w r q = (w2, r2, rp, tr2) ->
  reply_clear rp = true ->
  req_route q = Logout /\ reply_status rp = 200.
Proof.
  unfold dispatch, register, register_insert, login, logout, dashboard,
    contact_form.
  intros Hd Hcl. destruct (req_route q);
    repeat (match goal with
            | H : context [match ?x with _ => _ end] |- _ => destruct x eqn:?
            end; simplify_eq);
    simplify_eq; try discriminate; auto.
Qed.

(** X9.  A response sets a session cookie only when the request is a
    [/login] whose email was found and whose password verified; no
    other route, and no failed credential check, ever hands out a
    session id.  A response clears the cookie only when it is a
    [/logout] answered 200. *)
Theorem cookie_only_after_verified_login (w : world) (q : request) :
  (is_Some (set_cookie (handle w q).1.2) ->
   req_route q = Login
   /\ exists u p,
        user_find_fails (req_env q) = false
        /\ find_by_email (users w) (req_body q !! "email") = Some u
        /\ req_body q !! "password" = Some p
        /\ bcrypt_compare p (password u) = true)
  /\ (clear_cookie (handle w q).1.2 = true ->
      req_route q = Logout /\ status (handle w q).1.2 = 200).
Proof using genid_inj.
  split; last first.
  { unfold handle.
    destruct (session_middleware w (req_env q) (req_cookie q))
      as [tr0|[[w1 r] tr1]]; [done|].
    destruct (dispatch w1 r q) as [[[w2 r2] rp] tr2] eqn:Hd.
    destruct (commit w2 (req_env q) r2) as [[w3 ck] tr3]. simpl.
    by apply (dispatch_clear w1 r q w2 r2 rp tr2). }
  destruct q as [rt c b e]. simpl.
  destruct (session_middleware w e c) as [tr0|[[w1 r] tr1]] eqn:Hm.
  { unfold handle. simpl. rewrite Hm. simpl. by intros [? ?]. }
  assert (rt = Login \/ rt = Logout \/ (rt <> Login /\ rt <> Logout)) as Hrt
    by (destruct rt; auto).
  destruct Hrt as [->|[->|[Hr1 Hr2]]].
  - destruct (login_verified_dec w e b) as [(u & p & Hv)|Hno].
    + intros _. split; [done|]. exists u, p. exact Hv.
    + destruct (handle_login_unverified w c b e w1 r tr1 Hm Hno)
        as (rp & tr2 & Hh & _).
      rewrite Hh. simpl. by intros [? ?].
  - rewrite (handle_logout w c b e w1 r tr1 Hm).
    destruct (sess_destroy_fails e); simpl; by intros [? ?].
  - destruct (dispatch_quiet w1 r (mkReq rt c b e) Hr1 Hr2)
      as (w2 & rp & tr2 & Hd & _).
    rewrite (handle_untouched w (mkReq rt c b e) w1 w2 r rp tr1 tr2 Hm Hd).
    simpl. by intros [? ?].
Qed.

(** *** X10: the session store between logins and logouts *)

(** X10.  [/register], [/dashboard] and [/contact] leave the session
    store exactly as it was: the session that the middleware makes for
    a request without one is never saved. *)
Theorem session_store_untouched (w : world) (q : request) :
  req_route q <> Login ->
  req_route q <> Logout ->
  sessions (handle w q).1.1 = sessions w.
Proof using genid_inj.
  intros Hr1 Hr2.
  destruct (session_middleware w (req_env q) (req_cookie q))
    as [tr0|[[w1 r] tr1]] eqn:Hm.
  { unfold handle. by rewrite Hm. }
  destruct (middleware_gives_session _ _ _ _ _ _ Hm)
    as (s & _ & _ & _ & _ & _ & Hs & _).
  destruct (dispatch_quiet w1 r q Hr1 Hr2) as (w2 & rp & tr2 & Hd & Hs2 & _).
  rewrite (handle_untouched w q w1 w2 r rp tr1 tr2 Hm Hd). simpl. congruence.
Qed.

(** *** X12, X13: the contact form *)

Lemma handle_contact (w : world) (c : option string)
    (b : gmap string string) (e : env) :
  wf w ->
  sess_get_fails e = false ->
  exists w' rp,
    (handle w (mkReq Contact c b e)).1
    = (w', mkResp (reply_status rp) (reply_text rp) None (reply_clear rp))
    /\ users w' = users w /\ sessions w' = sessions w
    /\ ((rp = send 201 "Message submitted successfully!"
         /\ exists n m g,
             b !! "name" = Some n /\ b !! "email" = Some m
             /\ b !! "message" = Some g
             /\ n <> "" /\ m <> "" /\ g <> ""
             /\ contact_insert_fails e = false
             /\ contacts w'
                = contacts w ++ [mkContact n m g (c ≫= bound w)])
        \/ (rp = send 500 "Error submitting message."
            /\ contacts w' = contacts w
            /\ (required (b !! "name") = false
                \/ required (b !! "email") = false
                \/ required (b !! "message") = false
                \/ contact_insert_fails e = true))).
Proof using genid_inj.
  intros Hwf Hg.
  destruct (middleware_total w e c Hg) as (w1 & r & tr1 & Hm).
  destruct (middleware_gives_session _ _ _ _ _ _ Hm)
    as (s & Hs & _ & _ & Hu & Hc & Hss & _).
  pose proof (middleware_userId _ _ _ _ _ _ _ Hm Hs) as Hid.
  rewrite getcookie_bound in Hid by done.
  destruct (contact_form_spec w1 e r b s Hs)
    as (w2 & rp & Hcf & Hu2 & Hs2 & _ & _ & Hcases).
  rewrite (handle_untouched w (mkReq Contact c b e) w1 w2 r rp tr1 [ContactSave]
             Hm) by (unfold dispatch; simpl; exact Hcf).
  simpl. exists w2, rp. split; [done|].
  split; [congruence|]. split; [congruence|].
  rewrite Hid, Hc in Hcases.
  destruct Hcases as [H|(Hrp & -> & H)]; [by left|].
  right. split_and!; [done|done|exact H].
Qed.

(** X12.  A [/contact] request whose name, email and message are
    non-empty, while the stores answer, is answered 201 and appends
    exactly one contact record carrying the three strings and, as
    [userId], the user id bound to the session of the request's
    cookie, or nothing for an anonymous request; users and sessions
    are unchanged and no cookie is set. *)
Theorem contact_stores_message (w : world) (c : option string)
    (b : gmap string string) (e : env) (n m g : string) :
  wf w ->
  sess_get_fails e = false ->
  contact_insert_fails e = false ->
  b !! "name" = Some n -> b !! "email" = Some m -> b !! "message" = Some g ->
  n <> "" -> m <> "" -> g <> "" ->
  (handle w (mkReq Contact c b e)).1.2
  = mkResp 201 "Message submitted successfully!" None false
  /\ contacts (handle w (mkReq Contact c b e)).1.1
     = contacts w ++ [mkContact n m g (c ≫= bound w)]
  /\ users (handle w (mkReq Contact c b e)).1.1 = users w
  /\ sessions (handle w (mkReq Contact c b e)).1.1 = sessions w.
Proof using genid_inj.
  intros Hwf Hg Hins Hn Hm Hmsg Hne1 Hne2 Hne3.
  destruct (handle_contact w c b e Hwf Hg) as (w' & rp & Hh & Hu & Hs & Hcases).
  destruct (handle w (mkReq Contact c b e)) as [[w2 resp] tr].
  simpl in Hh |- *. injection Hh as -> ->.
  destruct Hcases as [(-> & n' & m' & g' & Hn' & Hm' & Hg' & _ & _ & _ & _ & Hc)
                     |(_ & _ & Hbad)].
  - rewrite Hn in Hn'. rewrite Hm in Hm'. rewrite Hmsg in Hg'.
    injection Hn' as <-. injection Hm' as <-. injection Hg' as <-. done.
  - exfalso. rewrite Hn, Hm, Hmsg, Hins in Hbad. simpl in Hbad.
    destruct Hbad as [H|[H|[H|H]]]; [| | |done];
      apply negb_false_iff, String.eqb_eq in H; done.
Qed.

(** X13.  A [/contact] request in which the name, the email or the
    message is missing or empty is answered 500 "Error submitting
    message." and stores nothing. *)
Theorem contact_rejects_incomplete (w : world) (c : option string)
    (b : gmap string string) (e : env) :
  wf w ->
  sess_get_fails e = false ->
  required (b !! "name") = false
  \/ required (b !! "email") = false
  \/ required (b !! "message") = false ->
  (handle w (mkReq Contact c b e)).1.2
  = mkResp 500 "Error submitting message." None false
  /\ contacts (handle w (mkReq Contact c b e)).1.1 = contacts w
  /\ users (handle w (mkReq Contact c b e)).1.1 = users w
  /\ sessions (handle w (mkReq Contact c b e)).1.1 = sessions w.
Proof using genid_inj.
  intros Hwf Hg Hbad.
  destruct (handle_contact w c b e Hwf Hg) as (w' & rp & Hh & Hu & Hs & Hcases).
  destruct (handle w (mkReq Contact c b e)) as [[w2 resp] tr].
  simpl in Hh |- *. injection Hh as -> ->.
  destruct Hcases as [(_ & n & m & g & Hn & Hm & Hmsg & Hne1 & Hne2 & Hne3 & _)
                     |(-> & Hc & _)].
  - exfalso. rewrite Hn, Hm, Hmsg in Hbad. simpl in Hbad.
    destruct Hbad as [H|[H|H]];
      apply negb_false_iff, String.eqb_eq in H; done.
  - done.
Qed.

(** *** X14: sessions point at stored users *)

Lemma handle_sessions_ok (w : world) (q : request) :
  wf w -> sessions_ok w -> sessions_ok (handle w q).1.1.
Proof using genid_inj.
  intros Hwf Hok. destruct (handle w q) as [[w' resp] tr] eqn:Hh. simpl.
  destruct (handle_delta w q w' resp tr Hwf Hh) as (_ & _ & Hd).
  assert (forall u, In u (users w) -> In u (users w')) as Hinc.
  { destruct (handle_stores w q w' resp tr Hh) as [[->|Hu] _]; [done|].
    destruct Hu as (_ & _ & un & em & pw & _ & _ & _ & _ & _ & _ & _ & ->).
    intros u Hu. apply in_or_app. by left. }
  intros sid v Hb. unfold bound in *.
  destruct (Hd sid) as [Heq|[Hn|(_ & _ & [He|(u & p & _ & _ & Hf & _ & _ & Hl & _)])]].
  - rewrite Heq in Hb. destruct (Hok sid v Hb) as (u & Hu & <-). eauto.
  - by rewrite Hn in Hb.
  - by rewrite He in Hb.
  - rewrite Hl in Hb. simpl in Hb. injection Hb as <-.
    apply find_by_email_Some in Hf as [Hin _]. eauto.
Qed.

(** X14.  Starting from a state in which every user id bound to a
    session is the [_id] of a stored user, any sequence of requests
    leaves a state with that property: no session is ever bound to a
    user who does not exist. *)
Theorem sessions_ok_invariant (qs : list request) (w : world) :
  wf w -> sessions_ok w -> sessions_ok (serve w qs).
Proof using genid_inj.
  revert w. induction qs as [|q qs IH]; intros w Hwf Hok; simpl; [done|].
  apply IH; [by apply handle_wf|by apply handle_sessions_ok].
Qed.

(** *** X15: when a registration succeeds *)

Lemma find_by_email_None_In (us : list user) (m : string) :
  find_by_email us (Some m) = None <-> ~ In m (map email us).
Proof. rewrite find_by_email_existsb. apply existsb_email_In. Qed.

(** X15.  While the session store can be read, [/register] is
    answered 201 exactly when the user collection answers, username
    and email are present and non-empty, no stored user has that
    email, and the password is present and hashes to a non-empty
    string; the password itself may be the empty string. *)
Theorem register_succeeds_iff (w : world) (c : option string)
    (b : gmap string string) (e : env) :
  sess_get_fails e = false ->
  status (handle w (mkReq Register c b e)).1.2 = 201
  <-> (user_find_fails e = false /\ user_insert_fails e = false
       /\ required (b !! "username") = true
       /\ required (b !! "email") = true
       /\ find_by_email (users w) (b !! "email") = None
       /\ exists pw, b !! "password" = Some pw
            /\ bcrypt_hash pw 10 (salt e) <> "").
Proof using genid_inj.
  intros Hg.
  destruct (middleware_total w e c Hg) as (w1 & r & tr1 & Hm).
  destruct (middleware_gives_session _ _ _ _ _ _ Hm)
    as (s & _ & _ & _ & Hu & _).
  destruct (handle_register w c b e w1 r tr1 Hm) as (w2 & rp & tr2 & Hr & Hh).
  rewrite Hh. simpl. clear Hh.
  unfold register, User_findOne in Hr. rewrite Hu in Hr.
  destruct (user_find_fails e) eqn:Hf.
  { injection Hr as <- <- <-. simpl. split; [discriminate|]. by intros [? _]. }
  destruct (find_by_email (users w) (b !! "email")) as [u|] eqn:Hfind.
  { injection Hr as <- <- <-. simpl. split; [discriminate|].
    by intros (_ & _ & _ & _ & ? & _). }
  destruct (register_insert_spec w1 e b)
    as (w3 & rp3 & tr3 & Hi & _ & _ & _ & Hcases).
  rewrite Hi in Hr. injection Hr as <- <- <-. rewrite Hu in Hcases.
  destruct Hcases as [(-> & un & em & pw & Hun & Hem & Hpw & Hne1 & Hne2 & Hh
                         & _ & Hins & _)
                     |(-> & _ & Hbad)]; simpl.
  - split; [intros _|done]. rewrite Hun, Hem. simpl.
    split_and!; try done.
    + apply negb_true_iff. by apply String.eqb_neq.
    + apply negb_true_iff. by apply String.eqb_neq.
    + eauto.
  - split; [discriminate|]. intros (_ & Hins & Hun & Hem & _ & pw & Hpw & Hh).
    exfalso.
    destruct Hbad as [H|[H|[H|[(pw' & Hpw' & H)|[(em & Hem' & H)|H]]]]];
      try congruence.
    rewrite Hem' in Hfind. by apply find_by_email_None_In in Hfind.
Qed.

(** *** X17: the sign-up form against the application *)

Lemma register_payload_lookup (f : signup_state) :
  register_payload f !! "username" = Some (su_username f)
  /\ register_payload f !! "email" = Some (su_email f)
  /\ register_payload f !! "password" = Some (su_password f).
Proof. done. Qed.

(** X17.  When the two password fields agree, the form posts
    username, email and password (never the confirmation) and then
    does one of two things: it shows "Registration successful!" and
    navigates to "/", and then the application has stored exactly one
    new user with the form's username and email and the hash of its
    password; or it shows "Registration failed. Please try again.",
    does not navigate, and the user collection is unchanged. *)
Theorem signup_reports_outcome (w : world) (origin : option string)
    (e : env) (f : signup_state) :
  su_password f = su_confirmPassword f ->
  ((signup w origin e f).2
   = [HttpPost "/register" (register_payload f);
      ConsoleLog "User registered successfully!";
      Alert "Registration successful!"; NavigateTo "/"]
   /\ users (signup w origin e f).1
      = users w ++ [mkUser (ObjectId (next_oid w)) (su_username f)
                      (su_email f)
                      (bcrypt_hash (su_password f) 10 (salt e))])
  \/ ((exists d,
         (signup w origin e f).2
         = [HttpPost "/register" (register_payload f); ConsoleError d;
            Alert "Registration failed. Please try again."])
      /\ users (signup w origin e f).1 = users w).
Proof using genid_inj.
  intros Heq. unfold signup, handleRegister, app.
  rewrite <- Heq, String.eqb_refl. simpl.
  destruct (cors_origin origin); [|right; eauto].
  set (w1 := bump_sid w).
  set (r := mkCtx None (genid (next_sid w)) (Some empty_session)
              (genid (next_sid w)) empty_session None).
  assert (session_middleware w e None
          = inr (w1, r, [SessionGenerate (genid (next_sid w))])) as Hm by done.
  destruct (handle_register w None (register_payload f) e _ _ _ Hm)
    as (w2 & rp & tr2 & Hr & Hh).
  rewrite Hh.
  destruct (register_spec w1 e r (register_payload f))
    as (w'' & rp' & tr' & Hr' & _ & _ & _ & Hcases).
  rewrite Hr in Hr'. injection Hr' as <- <- <-.
  destruct (register_payload_lookup f) as (Lu & Le & Lp).
  destruct Hcases as [(-> & un & em & pw & Hun & Hem & Hpw & _ & _ & _ & Hus & _)
                     |[(-> & -> & _)|(-> & Hus & _)]]; simpl.
  - left. rewrite Lu in Hun. rewrite Le in Hem. rewrite Lp in Hpw.
    injection Hun as <-. injection Hem as <-. injection Hpw as <-.
    split; [done|]. by rewrite Hus.
  - right. eauto.
  - right. split; [eauto|]. by rewrite Hus.
Qed.

(** *** X19: sessions are isolated from one another *)

(** The ids a request works with differ from any stored id that its
    cookie does not name. *)
Lemma middleware_sid_other (w : world) (e : env) (c : option string)
    (w1 : world) (r : reqctx) (tr : list event) (sid : string) :
  wf w ->
  session_middleware w e c = inr (w1, r, tr) ->
  is_Some (sessions w !! sid) ->
  c <> Some sid ->
  sessionID r <> sid /\ genid (next_sid w1) <> sid.
Proof using genid_inj.
  intros Hwf Hm Hsome Hc.
  pose proof (Hwf sid Hsome) as Hi.
  destruct (middleware_sid _ _ _ _ _ _ Hwf Hm) as (_ & _ & Hle & _ & _).
  destruct (middleware_gives_session _ _ _ _ _ _ Hm)
    as (s & _ & _ & _ & _ & _ & _ & _ & Hck & _ & Hcase).
  split.
  - destruct Hcase as [(Hc' & _)|(_ & _ & Hid & _)].
    + rewrite Hck in Hc'. apply getcookie_issued in Hc' as [-> _]. congruence.
    + rewrite Hid. intros Heq. apply (issued_not_next w sid 0 Hi).
      by rewrite Nat.add_0_r.
  - destruct Hi as (k & Hk & ->). intros Heq. apply genid_inj in Heq. lia.
Qed.

Lemma handle_other_session (w : world) (q : request) (sid : string) :
  wf w ->
  is_Some (sessions w !! sid) ->
  req_cookie q <> Some sid ->
  sessions (handle w q).1.1 !! sid = sessions w !! sid.
Proof using genid_inj.
  intros Hwf Hsome Hc. destruct q as [rt c b e]. simpl in Hc.
  destruct (session_middleware w e c) as [tr0|[[w1 r] tr1]] eqn:Hm.
  { unfold handle. simpl. by rewrite Hm. }
  destruct (middleware_sid_other _ _ _ _ _ _ sid Hwf Hm Hsome Hc) as [Ho Hn].
  destruct (middleware_gives_session _ _ _ _ _ _ Hm)
    as (s & _ & _ & _ & _ & _ & Hs & _).
  assert (rt = Login \/ rt = Logout \/ (rt <> Login /\ rt <> Logout)) as Hrt
    by (destruct rt; auto).
  destruct Hrt as [->|[->|[Hr1 Hr2]]].
  - destruct (login_verified_dec w e b) as [(u & p & Hf & Hfind & Hp & Hcmp)|Hno].
    + destruct (middleware_sid _ _ _ _ _ _ Hwf Hm) as (_ & Hiss & _).
      pose proof (handle_login_verified w c b e w1 r tr1 u p
                    Hm Hiss Hf Hfind Hp Hcmp) as Hh.
      simpl in Hh. rewrite Hh. unfold saved.
      destruct (sess_destroy_fails e), (sess_set_fails e); simpl; rewrite Hs;
        rewrite ?lookup_insert_ne, ?lookup_delete_ne by done; done.
    + destruct (handle_login_unverified w c b e w1 r tr1 Hm Hno)
        as (rp & tr2 & Hh & _).
      rewrite Hh. simpl. by rewrite Hs.
  - rewrite (handle_logout w c b e w1 r tr1 Hm).
    destruct (sess_destroy_fails e); simpl; rewrite Hs; [done|].
    by rewrite lookup_delete_ne.
  - destruct (dispatch_quiet w1 r (mkReq rt c b e) Hr1 Hr2)
      as (w2 & rp & tr2 & Hd & Hs2 & _).
    rewrite (handle_untouched w (mkReq rt c b e) w1 w2 r rp tr1 tr2 Hm Hd).
    simpl. congruence.
Qed.

Lemma expire_wf (w : world) (sid : string) : wf w -> wf (expire w sid).
Proof.
  intros Hwf x [s Hs]. unfold expire in Hs. simpl in Hs.
  apply lookup_delete_Some in Hs as [_ Hs]. apply Hwf. eauto.
Qed.

Lemma run_wf (ts : list tick) (w : world) : wf w -> wf (run w ts).
Proof using genid_inj.
  revert w. induction ts as [|[q|x] ts IH]; intros w Hwf; simpl; [done|..].
  - apply IH. by apply handle_wf.
  - apply IH. by apply expire_wf.
Qed.

(** A record that nothing in the timeline touches is still there. *)
Lemma run_other_session (ts : list tick) (w : world)
    (sid : string) (s : session) :
  wf w ->
  sessions w !! sid = Some s ->
  Forall (spares sid) ts ->
  sessions (run w ts) !! sid = Some s.
Proof using genid_inj.
  intros Hwf Hs Hall. revert w Hwf Hs.
  induction Hall as [|[q|x] ts Hq _ IH]; intros w Hwf Hs; simpl; [done|..].
  - apply IH; [by apply handle_wf|].
    rewrite handle_other_session; [done|done| |exact Hq]. rewrite Hs. eauto.
  - apply IH; [by apply expire_wf|].
    simpl. rewrite lookup_delete_ne; [done|exact Hq].
Qed.

(** X19.  A session is affected only by requests that present its own
    id and by the end of its own lifetime: through any timeline of
    requests that do not carry its cookie and of other sessions
    expiring, the record of a stored session stays as it is, so while
    it has not expired a logged-in user's next [/dashboard] request is
    still answered 200, whatever other clients registered, logged in
    or logged out in between. *)
Theorem session_survives_other_requests (ts : list tick) (w : world)
    (sid : string) (s : session) :
  wf w ->
  sessions w !! sid = Some s ->
  Forall (spares sid) ts ->
  sessions (run w ts) !! sid = Some s
  /\ forall v b e,
       userId s = Some v ->
       sess_get_fails e = false ->
       (handle (run w ts) (mkReq Dashboard (Some sid) b e)).1.2
       = mkResp 200 "Welcome to your dashboard!" None false.
Proof using genid_inj.
  intros Hwf Hs Hall.
  pose proof (run_other_session ts w sid s Hwf Hs Hall) as Hkeep.
  split; [done|]. intros v b e Hv Hg.
  rewrite (handle_dashboard _ _ b e (run_wf ts w Hwf) Hg). simpl.
  unfold bound. rewrite Hkeep. simpl. by rewrite Hv.
Qed.

(** *** X11: from login to the dashboard *)


End Server.

(** ** The concrete instance meets the assumptions *)

Lemma demo_genid_inj : forall i j, demo_genid i = demo_genid j -> i = j.
Proof.
  induction i as [|i IH]; destruct j as [|j]; simpl; intros H;
    try discriminate; [done|].
  injection H as H. f_equal. by apply IH.
Qed.

Lemma string_length_app (s1 s2 : string) :
  String.length (s1 +:+ s2) = String.length s1 + String.length s2.
Proof. induction s1 as [|a s1 IH]; simpl; [done|]. by rewrite IH. Qed.

Lemma demo_hash_not_plain : forall p rounds sl, demo_hash p rounds sl <> p.
Proof.
  intros p rounds sl H. apply (f_equal String.length) in H.
  unfold demo_hash in H. rewrite !string_length_app in H. simpl in H. lia.
Qed.

Lemma world0_wf : wf demo_genid world0.
Proof. intros sid [s Hs]. simpl in Hs. by rewrite lookup_empty in Hs. Qed.

Lemma world1_wf : wf demo_genid world1.
Proof. intros sid [s Hs]. simpl in Hs. by rewrite lookup_empty in Hs. Qed.

Lemma world2_wf : wf demo_genid world2.
Proof.
  intros sid [s Hs]. simpl in Hs.
  apply lookup_singleton_Some in Hs as [<- _].
  exists 2. simpl. split; [lia|done].
Qed.

Lemma world2_issued : issued demo_genid world2 "iis".
Proof. exists 2. simpl. split; [lia|done]. Qed.

(** ** The theorems at work on the scenario *)

(** Alice, logged in under ["iis"], logs in again: the new id is not
    ["iis"] and nothing is stored under ["iis"] any more. *)
Lemma login_regenerates_session_witness :
  exists w' pre old new,
    handle demo_genid demo_hash demo_compare false demo_error_page world2
      (mkReq Login (Some "iis") body_login env_ok)
    = (w', mkResp 200 "Login successful!" (Some new) false,
       pre ++ [SessionDestroy old; SessionGenerate new;
               SessionAssignUserId new (ObjectId 0);
               SessionSet new (mkSession (Some (ObjectId 0)))])
    /\ new <> "iis" /\ sessions w' !! "iis" = None.
Proof.
  destruct (login_regenerates_session demo_genid demo_hash demo_compare false demo_error_page
              demo_genid_inj world2 (Some "iis") body_login env_ok
              alice "secret")
    as (w' & pre & old & new & Hh & _ & _ & _ & _ & _ & Hc & _);
    [exact world2_wf | reflexivity | reflexivity | reflexivity
     | reflexivity | reflexivity | reflexivity |].
  exists w', pre, old, new. split; [exact Hh|]. apply Hc. reflexivity.
Defined.

(** Bob registers with Alice's email. *)
Lemma register_duplicate_email_rejected_witness :
  exists w' tr,
    handle demo_genid demo_hash demo_compare false demo_error_page world1
      (mkReq Register None body_bob env_ok)
    = (w', mkResp 400 "User already exists." None false, tr)
    /\ users w' = [alice]
    /\ forall ev, In ev tr -> is_hash ev = false /\ is_user_save ev = false.
Proof.
  destruct (register_duplicate_email_rejected demo_genid demo_hash demo_compare false demo_error_page
              demo_genid_inj world1 None body_bob env_ok alice)
    as (w' & tr & Hh & Hu & _ & _ & Htr);
    [reflexivity | reflexivity | left; reflexivity | reflexivity |].
  exists w', tr. split; [exact Hh|]. split; [exact Hu|exact Htr].
Defined.


(** Alice and Bob race for ["a@x.com"] on the empty store. *)
Lemma register_race_second_insert_500_witness :
  exists w2,
    register_interleaved demo_hash world0 env_ok body_alice env_ok body_bob
    = (w2, Some (send 201 "User registered successfully!"),
           Some (send 500 "Error registering user."))
    /\ users w2 = [alice].
Proof.
  destruct (register_race_second_insert_500 demo_hash world0
              env_ok body_alice env_ok body_bob)
    as (w2 & Hr & _ & Hu);
    [reflexivity | reflexivity | reflexivity | reflexivity | reflexivity |].
  exists w2. split; [exact Hr|exact Hu].
Defined.

(** A registration with an empty username on the empty store: the
    schema validation of [save] rejects it, and the [catch] answers
    500, which is not a client error. *)
Lemma register_empty_username_is_500 :
  required (body_no_username !! "username") = false
  /\ status (handle demo_genid demo_hash demo_compare false demo_error_page world0
               (mkReq Register None body_no_username env_ok)).1.2 = 500
  /\ ~ (400 <= status (handle demo_genid demo_hash demo_compare false demo_error_page world0
                         (mkReq Register None body_no_username env_ok)).1.2
         < 500).
Proof.
  assert (status (handle demo_genid demo_hash demo_compare false demo_error_page world0
                    (mkReq Register None body_no_username env_ok)).1.2 = 500)
    as -> by reflexivity.
  split; [reflexivity|]. split; [reflexivity|lia].
Qed.


Lemma register_missing_field_fails_witness :
  exists w' tr,
    handle demo_genid demo_hash demo_compare false demo_error_page world0
      (mkReq Register None body_no_username env_ok)
    = (w', mkResp 500 "Error registering user." None false, tr)
    /\ users w' = [].
Proof.
  destruct (register_missing_field_fails demo_genid demo_hash demo_compare false demo_error_page
              demo_genid_inj world0 None body_no_username env_ok)
    as (w' & tr & resp & Hh & Hu & [[[u Hsome] _]|[_ ->]]);
    [reflexivity | reflexivity | left; reflexivity | discriminate Hsome |].
  exists w', tr. split; [exact Hh|exact Hu].
Defined.

(** Alice logs in while the session store refuses to destroy. *)
Lemma login_regenerate_failure_witness :
  exists w' resp tr,
    handle demo_genid demo_hash demo_compare false demo_error_page world2
      (mkReq Login (Some "iis") body_login env_destroy_down)
    = (w', resp, tr)
    /\ status resp = 500
    /\ forall ev, In ev tr -> is_assign ev = false.
Proof.
  destruct (login_regenerate_failure demo_genid demo_hash demo_compare false demo_error_page
              demo_genid_inj world2 (Some "iis") body_login env_destroy_down
              alice "secret")
    as (w' & resp & tr & Hh & Hst & _ & Htr & _);
    [exact world2_wf | reflexivity | reflexivity | reflexivity
     | reflexivity | reflexivity | reflexivity |].
  exists w', resp, tr. split; [exact Hh|]. split; [exact Hst|exact Htr].
Defined.

(** Alice logs out, logs in again from elsewhere, and the old cookie
    is presented to the dashboard. *)
Lemma logout_invalidates_cookie_witness :
  (handle demo_genid demo_hash demo_compare false demo_error_page
     (serve demo_genid demo_hash demo_compare false demo_error_page
        (handle demo_genid demo_hash demo_compare false demo_error_page world2
           (mkReq Logout (Some "iis") ∅ env_ok)).1.1
        [mkReq Login None body_login env_ok])
     (mkReq Dashboard (Some "iis") ∅ env_ok)).1.2
  = mkResp 401 "Unauthorized. Please log in." None false.
Proof.
  destruct (logout_invalidates_cookie demo_genid demo_hash demo_compare false demo_error_page
              demo_genid_inj world2 "iis" ∅ env_ok)
    as (_ & _ & Hd);
    [exact world2_wf | exact world2_issued | reflexivity |].
  apply (Hd [mkReq Login None body_login env_ok] ∅ env_ok). reflexivity.
Defined.

(** The dashboard with Alice's cookie, and with no cookie. *)
Lemma dashboard_guard_witness :
  (handle demo_genid demo_hash demo_compare false demo_error_page world2
     (mkReq Dashboard (Some "iis") ∅ env_ok)).1.2
  = mkResp 200 "Welcome to your dashboard!" None false
  /\ (handle demo_genid demo_hash demo_compare false demo_error_page world2
        (mkReq Dashboard None ∅ env_ok)).1.2
     = mkResp 401 "Unauthorized. Please log in." None false.
Proof.
  split.
  - apply (dashboard_guard demo_genid demo_hash demo_compare false demo_error_page demo_genid_inj
             world2 (Some "iis") ∅ env_ok world2_wf eq_refl)
      with (u := ObjectId 0).
    reflexivity.
  - apply (dashboard_guard demo_genid demo_hash demo_compare false demo_error_page demo_genid_inj
             world2 None ∅ env_ok world2_wf eq_refl).
    reflexivity.
Defined.

(** Alice registers on the empty store. *)
Lemma register_success_stores_hash_witness :
  users (handle demo_genid demo_hash demo_compare false demo_error_page world0
           (mkReq Register None body_alice env_ok)).1.1 = [alice]
  /\ sessions (handle demo_genid demo_hash demo_compare false demo_error_page world0
                 (mkReq Register None body_alice env_ok)).1.1 = ∅
  /\ set_cookie (handle demo_genid demo_hash demo_compare false demo_error_page world0
                   (mkReq Register None body_alice env_ok)).1.2 = None.
Proof.
  destruct (register_success_stores_hash demo_genid demo_hash demo_compare false demo_error_page
              demo_genid_inj world0 None body_alice env_ok
              (handle demo_genid demo_hash demo_compare false demo_error_page world0
                 (mkReq Register None body_alice env_ok)).1.1
              (handle demo_genid demo_hash demo_compare false demo_error_page world0
                 (mkReq Register None body_alice env_ok)).1.2
              (handle demo_genid demo_hash demo_compare false demo_error_page world0
                 (mkReq Register None body_alice env_ok)).2
              demo_hash_not_plain)
    as (un & em & pw & Hun & Hem & Hpw & Hu & _ & Hs & _ & Hc & _);
    [reflexivity | reflexivity |].
  injection Hun as <-. injection Hem as <-. injection Hpw as <-.
  split; [exact Hu|]. split; [exact Hs|exact Hc].
Defined.

(** Alice's login on [world1] is the request that binds her id to the
    new session id ["iiis"]. *)
Lemma only_login_binds_userId_witness :
  (handle demo_genid demo_hash demo_compare false demo_error_page world1
     (mkReq Login None body_login env_ok)).1.2
  = mkResp 200 "Login successful!" (Some "iiis") false.
Proof.
  destruct (only_login_binds_userId demo_genid demo_hash demo_compare false demo_error_page
              demo_genid_inj world1 (mkReq Login None body_login env_ok)
              (handle demo_genid demo_hash demo_compare false demo_error_page world1
                 (mkReq Login None body_login env_ok)).1.1
              (handle demo_genid demo_hash demo_compare false demo_error_page world1
                 (mkReq Login None body_login env_ok)).1.2
              (handle demo_genid demo_hash demo_compare false demo_error_page world1
                 (mkReq Login None body_login env_ok)).2
              world1_wf eq_refl) as [_ H].
  destruct (H "iiis" (ObjectId 0) eq_refl) as [Hold|(_ & Hresp & _)].
  - discriminate Hold.
  - exact Hresp.
Defined.

(** ** The further properties on the scenario *)

Lemma world0_users_ok : users_ok world0.
Proof. split; [constructor|]. intros u []. Qed.

Lemma world2_sessions_ok : sessions_ok world2.
Proof.
  intros sid v Hb. unfold bound in Hb. simpl in Hb.
  destruct (decide (sid = "iis")) as [->|Hne].
  - injection Hb as <-. exists alice. split; [by left|done].
  - by rewrite lookup_singleton_ne in Hb.
Qed.

(** Alice registers, Bob tries her email, Alice logs in. *)
Lemma users_ok_invariant_witness :
  users_ok
    (serve demo_genid demo_hash demo_compare false demo_error_page world0
       [mkReq Register None body_alice env_ok;
        mkReq Register None body_bob env_ok;
        mkReq Login None body_login env_ok]).
Proof.
  apply (users_ok_invariant demo_genid demo_hash demo_compare false demo_error_page). exact world0_users_ok.
Defined.

Lemma register_interleaved_users_ok_witness :
  users_ok
    (register_interleaved demo_hash world0 env_ok body_alice env_ok body_bob).1.1.
Proof.
  apply (register_interleaved_users_ok demo_hash demo_compare).
  exact world0_users_ok.
Defined.

(** Alice registers; after her login, Bob's registration with her
    email is refused. *)
Lemma registered_email_stays_taken_witness :
  (handle demo_genid demo_hash demo_compare false demo_error_page
     (serve demo_genid demo_hash demo_compare false demo_error_page
        (handle demo_genid demo_hash demo_compare false demo_error_page world0
           (mkReq Register None body_alice env_ok)).1.1
        [mkReq Login None body_login env_ok])
     (mkReq Register None body_bob env_ok)).1.2
  = mkResp 400 "User already exists." None false.
Proof.
  apply (registered_email_stays_taken demo_genid demo_hash demo_compare false demo_error_page
           demo_genid_inj world0 None body_alice env_ok
           [mkReq Login None body_login env_ok] None body_bob env_ok);
    reflexivity.
Defined.

(** Alice registers and, after Bob's failed attempt, logs in. *)
Lemma register_then_login_witness :
  exists sid,
    (handle demo_genid demo_hash demo_compare false demo_error_page
       (serve demo_genid demo_hash demo_compare false demo_error_page
          (handle demo_genid demo_hash demo_compare false demo_error_page world0
             (mkReq Register None body_alice env_ok)).1.1
          [mkReq Register None body_bob env_ok])
       (mkReq Login None body_login env_ok)).1.2
    = mkResp 200 "Login successful!" (Some sid) false.
Proof.
  destruct (register_then_login demo_genid demo_hash demo_compare false demo_error_page
              demo_genid_inj world0 None body_alice env_ok
              [mkReq Register None body_bob env_ok] None body_login env_ok)
    as (sid & Hresp & _);
    [ intros pw [= <-]; reflexivity | exact world0_wf | reflexivity
    | reflexivity | reflexivity | reflexivity | reflexivity | reflexivity
    | reflexivity | ].
  exists sid. exact Hresp.
Defined.

Lemma login_400_changes_nothing_witness :
  sessions (handle demo_genid demo_hash demo_compare false demo_error_page world2
              (mkReq Login (Some "iis") body_wrong_password env_ok)).1.1
  = sessions world2.
Proof.
  apply (login_400_changes_nothing demo_genid demo_hash demo_compare false demo_error_page
           demo_genid_inj world2 (Some "iis") body_wrong_password env_ok
           world2_wf eq_refl).
Defined.

Lemma login_missing_password_is_500_witness :
  (handle demo_genid demo_hash demo_compare false demo_error_page world1
     (mkReq Login None body_no_password env_ok)).1.2
  = mkResp 500 "Error logging in." None false.
Proof.
  apply (login_missing_password_is_500 demo_genid demo_hash demo_compare false demo_error_page
           demo_genid_inj world1 None body_no_password env_ok alice);
    reflexivity.
Defined.

Lemma logout_deletes_only_own_session_witness :
  (handle demo_genid demo_hash demo_compare false demo_error_page world2
     (mkReq Logout None ∅ env_ok)).1.2
  = mkResp 200 "Logout successful!" None true
  /\ sessions (handle demo_genid demo_hash demo_compare false demo_error_page world2
                 (mkReq Logout None ∅ env_ok)).1.1
     = sessions world2.
Proof.
  destruct (logout_deletes_only_own_session demo_genid demo_hash demo_compare false demo_error_page
              demo_genid_inj world2 None ∅ env_ok world2_wf eq_refl eq_refl)
    as (H1 & H2 & _).
  split; [exact H1|exact H2].
Defined.

Lemma cookie_only_after_verified_login_witness :
  req_route (mkReq Login None body_login env_ok) = Login
  /\ exists u p,
       find_by_email (users world1) (body_login !! "email") = Some u
       /\ body_login !! "password" = Some p
       /\ demo_compare p (password u) = true.
Proof.
  destruct (cookie_only_after_verified_login demo_genid demo_hash demo_compare false demo_error_page
              demo_genid_inj world1 (mkReq Login None body_login env_ok))
    as [H _].
  destruct H as (Hr & u & p & _ & Hf & Hp & Hc).
  - exists "iiis". reflexivity.
  - split; [exact Hr|]. exists u, p. split; [exact Hf|]. split; [exact Hp|exact Hc].
Defined.

Lemma session_store_untouched_witness :
  sessions (handle demo_genid demo_hash demo_compare false demo_error_page world2
              (mkReq Contact None body_contact env_ok)).1.1
  = sessions world2.
Proof.
  apply (session_store_untouched demo_genid demo_hash demo_compare false demo_error_page
           demo_genid_inj world2 (mkReq Contact None body_contact env_ok));
    discriminate.
Defined.


(** Alice, logged in, sends a message. *)
Lemma contact_stores_message_witness :
  contacts (handle demo_genid demo_hash demo_compare false demo_error_page world2
              (mkReq Contact (Some "iis") body_contact env_ok)).1.1
  = [mkContact "Alice" "a@x.com" "hello" (Some (ObjectId 0))].
Proof.
  apply (contact_stores_message demo_genid demo_hash demo_compare false demo_error_page
           demo_genid_inj world2 (Some "iis") body_contact env_ok
           "Alice" "a@x.com" "hello" world2_wf);
    (reflexivity || discriminate).
Defined.

Lemma contact_rejects_incomplete_witness :
  (handle demo_genid demo_hash demo_compare false demo_error_page world2
     (mkReq Contact (Some "iis") body_contact_no_message env_ok)).1.2
  = mkResp 500 "Error submitting message." None false.
Proof.
  apply (contact_rejects_incomplete demo_genid demo_hash demo_compare false demo_error_page
           demo_genid_inj world2 (Some "iis") body_contact_no_message env_ok
           world2_wf eq_refl).
  right; right. reflexivity.
Defined.

Lemma sessions_ok_invariant_witness :
  sessions_ok
    (serve demo_genid demo_hash demo_compare false demo_error_page world2
       [mkReq Login None body_login env_ok;
        mkReq Logout (Some "iis") ∅ env_ok]).
Proof.
  apply (sessions_ok_invariant demo_genid demo_hash demo_compare false demo_error_page
           demo_genid_inj);
    [exact world2_wf|exact world2_sessions_ok].
Defined.

(** An empty password is accepted. *)
Lemma register_succeeds_iff_witness :
  status (handle demo_genid demo_hash demo_compare false demo_error_page world0
            (mkReq Register None (<["password" := ""]> body_alice) env_ok)).1.2
  = 201.
Proof.
  apply (register_succeeds_iff demo_genid demo_hash demo_compare false demo_error_page
           demo_genid_inj world0 None (<["password" := ""]> body_alice) env_ok
           eq_refl).
  split_and!; try reflexivity. exists "". split; [reflexivity|discriminate].
Defined.

Lemma signup_reports_outcome_witness :
  users (signup demo_genid demo_hash demo_compare false demo_error_page world0
           (Some "http://localhost:5173") env_ok form_alice).1
  = [alice]
  /\ users (signup demo_genid demo_hash demo_compare false demo_error_page world1
              (Some "http://localhost:5173") env_ok form_alice).1
     = [alice].
Proof.
  split.
  - destruct (signup_reports_outcome demo_genid demo_hash demo_compare false demo_error_page
                demo_genid_inj world0 (Some "http://localhost:5173")
                env_ok form_alice eq_refl) as [[_ H]|[[d Hd] _]].
    + exact H.
    + discriminate Hd.
  - destruct (signup_reports_outcome demo_genid demo_hash demo_compare false demo_error_page
                demo_genid_inj world1 (Some "http://localhost:5173")
                env_ok form_alice eq_refl) as [[Hev _]|[_ H]].
    + discriminate Hev.
    + exact H.
Defined.

(** Bob fails to register, somebody logs out without a cookie and
    another session expires while Alice is logged in. *)
Lemma session_survives_other_requests_witness :
  (handle demo_genid demo_hash demo_compare false demo_error_page
     (run demo_genid demo_hash demo_compare false demo_error_page world2
        [Arrives (mkReq Register None body_bob env_ok);
         Arrives (mkReq Logout None ∅ env_ok);
         Expires "is"])
     (mkReq Dashboard (Some "iis") ∅ env_ok)).1.2
  = mkResp 200 "Welcome to your dashboard!" None false.
Proof.
  destruct (session_survives_other_requests demo_genid demo_hash demo_compare
              false demo_error_page demo_genid_inj
              [Arrives (mkReq Register None body_bob env_ok);
               Arrives (mkReq Logout None ∅ env_ok);
               Expires "is"]
              world2 "iis" (mkSession (Some (ObjectId 0)))
              world2_wf eq_refl) as [_ H].
  - repeat constructor; discriminate.
  - apply (H (ObjectId 0)); reflexivity.
Defined.
